(** * Portfolio page script: active-section tracking and scroll behaviours

    A shallow embedding of the two script versions of the repository:
    - [Legacy]: the scroll-driven script (smooth scrolling, navbar shadow,
      active link chosen by a 200 pixel lookahead on [offsetTop]);
    - [Script]: [script.js] (throttled scroll toggles, active link chosen
      by an intersection observer, reveal / skill-bar / counter set-up).

    DOM elements are records holding exactly the attributes and
    presentation state the scripts read or write.  Pixel positions are
    integers ([Z]); intersection ratios are rationals ([Q]). *)

From Stdlib Require Import List String ZArith QArith Bool Lia Lqa.
From Stdlib Require Import Sorted Qround Qminmax.
Import ListNotations.

Local Open Scope Z_scope.

(** ** Page structure *)

Module Dom.

(** A [section[id]] element: its [id] attribute and layout box. *)
Record Section := mkSection
  { attr_id : string;
    offsetTop : Z;
    clientHeight : Z }.

(** A [.nav-link] element: [getAttribute("href")] ([None] is [null])
    and whether its class list contains ["active"]. *)
Record NavLink := mkNavLink
  { href : option string;
    active : bool }.

Definition classList_add (link : NavLink) : NavLink :=
  {| href := href link; active := true |}.

Definition classList_remove (link : NavLink) : NavLink :=
  {| href := href link; active := false |}.

(** [classList.toggle("active", force)]. *)
Definition classList_toggle (link : NavLink) (force : bool) : NavLink :=
  {| href := href link; active := force |}.

(** [link.getAttribute("href") === s]. *)
Definition hrefIs (link : NavLink) (s : string) : bool :=
  match href link with
  | Some h => String.eqb h s
  | None => false
  end.

(** The template literal [`#${id}`]. *)
Definition hash (id : string) : string := String.append "#" id.

Definition countActive (links : list NavLink) : nat :=
  List.length (filter active links).

(** The full re-scan both handlers end in: every link is marked
    according to whether its [href] is [#id]. *)
Definition rescan (id : string) (links : list NavLink) : list NavLink :=
  map (fun link => classList_toggle link (hrefIs link (hash id))) links.

End Dom.

Import Dom.

(** ** Completion of an event handler *)

Inductive JsError := TypeError.

Inductive Completion (A : Type) :=
| Normal (a : A)
| Throw (e : JsError).

Arguments Normal {A} a.
Arguments Throw {A} e.

(** ** The scroll-driven script *)

Module Legacy.

Record Navbar := mkNavbar { boxShadow : string }.

(** Navbar scroll effect.  [navbar] is the result of
    [document.getElementById("navbar")]; reading [navbar.style] of
    [null] raises a [TypeError] in either branch. *)
Definition navbarScrollEffect (navbar : option Navbar) (scrollY : Z)
  : Completion Navbar :=
  if scrollY >? 50 then
    match navbar with
    | Some _ => Normal {| boxShadow := "0 4px 20px rgba(0,0,0,0.15)" |}
    | None => Throw TypeError
    end
  else
    match navbar with
    | Some _ => Normal {| boxShadow := "0 2px 10px rgba(0,0,0,0.1)" |}
    | None => Throw TypeError
    end.

(** The [sections.forEach] loop: [current] starts as the empty string
    and is overwritten by every section with
    [scrollY >= sectionTop - 200]; [sectionHeight] is read and unused. *)
Definition current (sections : list Section) (scrollY : Z) : string :=
  fold_left
    (fun cur section =>
       let sectionTop := offsetTop section in
       if scrollY >=? sectionTop - 200 then attr_id section else cur)
    sections EmptyString.

(** The body of [navLinks.forEach]. *)
Definition mark (cur : string) (link : NavLink) : NavLink :=
  let link' := classList_remove link in
  if hrefIs link' (hash cur) then classList_add link' else link'.

(** The whole scroll listener for the active link. *)
Definition onScrollActive (sections : list Section) (scrollY : Z)
           (navLinks : list NavLink) : list NavLink :=
  map (mark (current sections scrollY)) navLinks.

(** Scroll notifications reach the listener directly; [runs] logs the
    scroll position of every execution of the listener. *)
Record State := mkState
  { navLinks : list NavLink;
    runs : list Z }.

Definition scrollEvent (sections : list Section) (st : State) (scrollY : Z)
  : State :=
  {| navLinks := onScrollActive sections scrollY (navLinks st);
     runs := runs st ++ [scrollY] |}.

Definition scrollEvents (sections : list Section) (ys : list Z) (st : State)
  : State :=
  fold_left (scrollEvent sections) ys st.

End Legacy.

(** ** [script.js] *)

Module Script.

(** An [IntersectionObserverEntry]. *)
Record Entry := mkEntry
  { target : Section;
    isIntersecting : bool;
    intersectionRatio : Q }.

(** [x || 0] on a number. *)
Definition orZero (x : Q) : Q := if Qeq_bool x 0 then 0%Q else x.

(** The comparator handed to [sort]. *)
Definition byRatioDesc (a b : Entry) : Q :=
  (orZero (intersectionRatio b) - orZero (intersectionRatio a))%Q.

(** [Array.prototype.sort] is stable: an element moves behind another
    one only when the comparator is positive.  Insertion from the right
    is one such sort. *)
Fixpoint insertSorted {A} (cmp : A -> A -> Q) (x : A) (l : list A) : list A :=
  match l with
  | [] => [x]
  | y :: l' =>
      if Qle_bool (cmp x y) 0 then x :: l else y :: insertSorted cmp x l'
  end.

Fixpoint sort {A} (cmp : A -> A -> Q) (l : list A) : list A :=
  match l with
  | [] => []
  | x :: l' => insertSorted cmp x (sort cmp l')
  end.

(** [entries.filter(...).sort(...)[0]]; [None] is [undefined]. *)
Definition visible (entries : list Entry) : option Entry :=
  hd_error (sort byRatioDesc (filter isIntersecting entries)).

(** The callback of [sectionObserver]. *)
Definition sectionObserverCallback (entries : list Entry)
           (navLinks : list NavLink) : list NavLink :=
  match visible entries with
  | None => navLinks
  | Some v =>
      let id := attr_id (target v) in
      map (fun link => classList_toggle link (hrefIs link (hash id))) navLinks
  end.

(** The options of [sectionObserver].  [navbarHeight] is
    [navbar.offsetHeight], [None] when the page has no navbar; the root
    margin is [-rootInsetTop] pixels at the top and -55% of the root
    height at the bottom. *)
Definition getNavHeight (navbarHeight : option Z) : Z :=
  match navbarHeight with
  | Some h => h
  | None => 76
  end.

Definition rootInsetTop (navbarHeight : option Z) : Z :=
  Z.max (getNavHeight navbarHeight) 60.

Definition rootInsetBottom (rootHeight : Z) : Z := 55 * rootHeight / 100.

(** *** Scroll behaviours (throttled) *)

(** The window as the throttled listener sees it.  [navbar] and
    [scrollTopBtn] hold the "scrolled" / "visible" class of the element,
    [None] when the element is missing from the page; [frameRequests]
    counts the [onScroll] callbacks queued by [requestAnimationFrame];
    [onScrollRuns] logs the [y] read by every execution of [onScroll]. *)
Record Window := mkWindow
  { scrollY : Z;
    ticking : bool;
    frameRequests : nat;
    navbar : option bool;
    scrollTopBtn : option bool;
    onScrollRuns : list Z }.

(** [window.pageYOffset] is an alias of [window.scrollY]. *)
Definition pageYOffset (w : Window) : Z := scrollY w.

Definition onScroll (w : Window) : Window :=
  let y := if scrollY w =? 0 then pageYOffset w else scrollY w in
  {| scrollY := scrollY w;
     ticking := false;
     frameRequests := frameRequests w;
     navbar := option_map (fun _ => y >? 20) (navbar w);
     scrollTopBtn := option_map (fun _ => y >? 500) (scrollTopBtn w);
     onScrollRuns := onScrollRuns w ++ [y] |}.

(** The listener registered for "scroll". *)
Definition scrollListener (w : Window) : Window :=
  if negb (ticking w) then
    {| scrollY := scrollY w;
       ticking := true;
       frameRequests := S (frameRequests w);
       navbar := navbar w;
       scrollTopBtn := scrollTopBtn w;
       onScrollRuns := onScrollRuns w |}
  else w.

(** The browser moves the viewport to [y] and notifies the listener. *)
Definition scrollEvent (w : Window) (y : Z) : Window :=
  scrollListener
    {| scrollY := y;
       ticking := ticking w;
       frameRequests := frameRequests w;
       navbar := navbar w;
       scrollTopBtn := scrollTopBtn w;
       onScrollRuns := onScrollRuns w |}.

Definition scrollEvents (ys : list Z) (w : Window) : Window :=
  fold_left scrollEvent ys w.

(** A rendering frame runs the queued callbacks and empties the queue. *)
Definition animationFrame (w : Window) : Window :=
  Nat.iter (frameRequests w) onScroll
    {| scrollY := scrollY w;
       ticking := ticking w;
       frameRequests := 0;
       navbar := navbar w;
       scrollTopBtn := scrollTopBtn w;
       onScrollRuns := onScrollRuns w |}.

(** *** Observer set-up at load time *)

Record RevealEl := mkRevealEl { is_visible : bool }.

Record SkillFill := mkSkillFill
  { data_progress : option string;
    style_width : option string }.

Record StatNumber := mkStatNumber
  { data_count : option string;
    data_suffix : option string;
    textContent : string }.

Record Page := mkPage
  { navLinks : list NavLink;
    sections : list Section;
    revealEls : list RevealEl;
    skillsOverview : option (list SkillFill);
    statEls : list StatNumber }.

(** The targets handed to [observe] by each observer the script creates. *)
Record Observed := mkObserved
  { bySectionObserver : list Section;
    byRevealObserver : list RevealEl;
    bySkillsObserver : bool;
    byStatsObserver : list StatNumber }.

(** [attr || d] on an attribute value. *)
Definition orDefault (attr : option string) (d : string) : string :=
  match attr with
  | Some EmptyString | None => d
  | Some s => s
  end.

(** Truthiness of an attribute value. *)
Definition truthy (attr : option string) : bool :=
  match attr with
  | Some EmptyString | None => false
  | Some _ => true
  end.

Section Init.

(** [`${Number(s)}`]: the decimal text of the number a string parses to. *)
Variable numberText : string -> string.

(** What the style declaration holds after [style.width = w]: the stored
    value when [w] parses as a width, [None] when the setter drops [w]
    as invalid and the declaration stays as it was. *)
Variable cssWidth : string -> option string.

Variable prefersReducedMotion : bool.
Variable hasIntersectionObserver : bool.

(** [bar.style.width = w]. *)
Definition setWidth (bar : SkillFill) (w : string) : SkillFill :=
  match cssWidth w with
  | Some v => {| data_progress := data_progress bar; style_width := Some v |}
  | None => bar
  end.

Definition animateSkillBars (bars : list SkillFill) : list SkillFill :=
  map (fun bar =>
         let p := numberText (orDefault (data_progress bar) "0") in
         let bar1 :=
           setWidth bar
             (if prefersReducedMotion then String.append p "%" else "0%") in
         setWidth bar1 (String.append p "%"))
      bars.

(** The [else] branch of the stat counters. *)
Definition showCount (el : StatNumber) : StatNumber :=
  let suffix := orDefault (data_suffix el) EmptyString in
  match data_count el with
  | Some e =>
      if truthy (data_count el) then
        {| data_count := data_count el;
           data_suffix := data_suffix el;
           textContent := String.append e suffix |}
      else el
  | None => el
  end.

Definition show (el : RevealEl) : RevealEl := {| is_visible := true |}.

(** The four set-up blocks, in source order: page after the script has
    run, and what each observer was asked to watch. *)
Definition init (page : Page) : Page * Observed :=
  let sectionTargets :=
    if hasIntersectionObserver && negb (Nat.eqb (List.length (sections page)) 0)
    then sections page else [] in
  let '(reveal', revealTargets) :=
    if prefersReducedMotion then (map show (revealEls page), [])
    else if hasIntersectionObserver then (revealEls page, revealEls page)
    else (map show (revealEls page), []) in
  let '(skills', skillsTarget) :=
    match skillsOverview page with
    | Some bars =>
        if hasIntersectionObserver then (Some bars, true)
        else (Some (animateSkillBars bars), false)
    | None => (None, false)
    end in
  let '(stats', statTargets) :=
    if negb (Nat.eqb (List.length (statEls page)) 0) && hasIntersectionObserver
    then (statEls page, statEls page)
    else (map showCount (statEls page), []) in
  ({| navLinks := navLinks page;
      sections := sections page;
      revealEls := reveal';
      skillsOverview := skills';
      statEls := stats' |},
   {| bySectionObserver := sectionTargets;
      byRevealObserver := revealTargets;
      bySkillsObserver := skillsTarget;
      byStatsObserver := statTargets |}).

End Init.

End Script.

(** ** Viewport geometry *)

Module Viewport.

Import Script.

(** The part of the page, from [rootTop] down to [rootBottom], against
    which sections are observed. *)
Record Root := mkRoot
  { rootTop : Z;
    rootBottom : Z }.

(** The visible viewport of height [vh] at scroll position [y]. *)
Definition viewport (vh y : Z) : Root :=
  {| rootTop := y; rootBottom := y + vh |}.

(** The viewport shrunk by the root margin that [sectionObserver] asks
    for. *)
Definition observerRoot (navbarHeight : option Z) (vh y : Z) : Root :=
  {| rootTop := y + rootInsetTop navbarHeight;
     rootBottom := y + vh - rootInsetBottom vh |}.

(** Modelled from the spec: whether a Section intersects the root and its
    intersection ratio, "the fraction of a Section's area currently within
    the visible viewport".  The repository holds no code for either; the
    browser computes them and hands them to the observer callback. *)
Definition overlap (r : Root) (s : Section) : Z :=
  Z.min (offsetTop s + clientHeight s) (rootBottom r)
  - Z.max (offsetTop s) (rootTop r).

Definition intersects (r : Root) (s : Section) : bool :=
  0 <? overlap r s.

Definition ratio (r : Root) (s : Section) : Q :=
  if intersects r s
  then Qmake (overlap r s) (Z.to_pos (clientHeight s))
  else 0%Q.

(** One entry per section, in document order, as in the notification
    that follows [observe]. *)
Definition observe (r : Root) (sections : list Section) : list Entry :=
  map (fun s =>
         {| target := s;
            isIntersecting := intersects r s;
            intersectionRatio := ratio r s |})
      sections.

End Viewport.

(** ** The tracker seen as one state machine *)

Module Tracker.

Import Script.

(** One recomputation of the highlighting, by either handler. *)
Inductive Recompute :=
| ByScroll (scrollY : Z)
| ByObserver (entries : list Entry).

Definition recompute (sections : list Section) (ev : Recompute)
           (links : list NavLink) : list NavLink :=
  match ev with
  | ByScroll y => Legacy.onScrollActive sections y links
  | ByObserver entries => sectionObserverCallback entries links
  end.

(** The identifier a recomputation settles on, if it settles on one. *)
Definition selected (sections : list Section) (ev : Recompute)
  : option string :=
  match ev with
  | ByScroll y => Some (Legacy.current sections y)
  | ByObserver entries =>
      option_map (fun v => attr_id (target v)) (visible entries)
  end.

(** Link markings together with the identifier chosen by the latest
    recomputation that chose one ([None] before the first). *)
Record State := mkState
  { links : list NavLink;
    activeId : option string }.

Definition step (sections : list Section) (st : State) (ev : Recompute)
  : State :=
  {| links := recompute sections ev (links st);
     activeId :=
       match selected sections ev with
       | Some id => Some id
       | None => activeId st
       end |}.

Definition run (sections : list Section) (evs : list Recompute) (st : State)
  : State :=
  fold_left (step sections) evs st.

Definition start (links0 : list NavLink) : State :=
  {| links := links0; activeId := None |}.

Definition atMostOneActive (ls : list NavLink) : Prop :=
  (countActive ls <= 1)%nat.

(** A link is active exactly when its [href] is [#id]. *)
Definition marksOnly (id : string) (ls : list NavLink) : Prop :=
  Forall (fun l => active l = hrefIs l (hash id)) ls.

Definition Inv (st : State) : Prop :=
  atMostOneActive (links st) /\
  match activeId st with
  | Some id => marksOnly id (links st)
  | None => True
  end.

End Tracker.

(** ** The choice rules, and the rules as the specification words them *)

Module Rules.

Import Script.

(** The first element after sorting, computed without sorting. *)
Definition better (e : Entry) (best : option Entry) : option Entry :=
  match best with
  | None => Some e
  | Some b => if Qle_bool (byRatioDesc e b) 0 then Some e else Some b
  end.

(** [v] sits in [entries] where the choice rule puts the winner: it
    intersects, every intersecting entry before it has a strictly
    smaller ratio and every intersecting entry after it has a ratio
    that is not larger. *)
Definition firstMostVisible (entries : list Entry) (v : Entry) : Prop :=
  exists pre post,
    entries = pre ++ v :: post
    /\ isIntersecting v = true
    /\ Forall (fun e => isIntersecting e = true ->
                        (intersectionRatio e < intersectionRatio v)%Q) pre
    /\ Forall (fun e => isIntersecting e = true ->
                        (intersectionRatio e <= intersectionRatio v)%Q) post.

(** [s] is the last section, in document order, whose top edge is at
    most 200 pixels below the scroll position. *)
Definition lastReached (sections : list Section) (y : Z) (s : Section)
  : Prop :=
  exists pre post,
    sections = pre ++ s :: post
    /\ offsetTop s - 200 <= y
    /\ Forall (fun t => y < offsetTop t - 200) post.

(** The rule "most visible wins, first in document order on a tie",
    read on the geometry of the page: [select sections vh y] follows it
    when it returns the section that the rule singles out among the
    observations of [sections] against [root vh y], for viewport height
    [vh] and scroll position [y]. *)
Definition choosesMostVisible (root : Z -> Z -> Viewport.Root)
           (select : list Section -> Z -> Z -> option string) : Prop :=
  forall sections vh y v,
    firstMostVisible (Viewport.observe (root vh y) sections) v ->
    select sections vh y = Some (attr_id (target v)).


(** What the scroll listener selects; the viewport height plays no part. *)
Definition scrollSelect (sections : list Section) (vh y : Z)
  : option string :=
  Some (Legacy.current sections y).

(** The rule "a recomputation where no section intersects the viewport
    leaves the marking of every link as it was", for a recomputation
    [recompute sections vh y] and a page with some link marked. *)
Definition keepsMarkingOffSections
           (recompute : list Section -> Z -> Z -> list NavLink -> list NavLink)
  : Prop :=
  forall sections vh y links,
    Exists (fun l => active l = true) links ->
    Forall (fun s => Viewport.intersects (Viewport.viewport vh y) s = false)
           sections ->
    recompute sections vh y links = links.

(** The rule "a section whose height or top offset is zero or negative
    is never selected". *)
Definition excludesDegenerate
           (select : list Section -> Z -> Z -> option string) : Prop :=
  forall sections vh y s,
    In s sections ->
    clientHeight s <= 0 \/ offsetTop s <= 0 ->
    select sections vh y <> Some (attr_id s).

(** The rule "with no sections or no links a recomputation changes
    nothing". *)
Definition noopOnEmpty
           (recompute : list Section -> Z -> Z -> list NavLink -> list NavLink)
  : Prop :=
  forall sections vh y links,
    sections = [] \/ links = [] ->
    recompute sections vh y links = links.

(** The recomputations of the two scripts on the geometry of the page. *)
Definition observerRecompute (root : Z -> Z -> Viewport.Root)
           (sections : list Section) (vh y : Z)
           (links : list NavLink) : list NavLink :=
  sectionObserverCallback (Viewport.observe (root vh y) sections) links.

Definition scrollRecompute (sections : list Section) (vh y : Z)
           (links : list NavLink) : list NavLink :=
  Legacy.onScrollActive sections y links.

(** The rule "at most one link is active, and the active link is the one
    whose target is the identifier of the active section", for the
    marking a recomputation leaves on a page with pairwise distinct
    [href]s: an active link names some section of the page. *)
Definition highlightsASection
           (recompute : list Section -> Z -> Z -> list NavLink -> list NavLink)
  : Prop :=
  forall sections vh y links,
    NoDup (map href links) ->
    Tracker.atMostOneActive (recompute sections vh y links)
    /\ Forall (fun l => active l = true ->
                        exists s, In s sections
                                  /\ href l = Some (hash (attr_id s)))
              (recompute sections vh y links).


(** The rule "without viewport observation the navigation highlighting
    is not left unset or silently skipped", for a set-up [setup] run
    without [IntersectionObserver]: on a page with sections and links it
    marks some link or at least asks an observer to watch the sections. *)
Definition fallbackMarksNavigation (setup : Page -> Page * Observed) : Prop :=
  forall page,
    sections page <> [] ->
    navLinks page <> [] ->
    Exists (fun l => active l = true) (navLinks (fst (setup page)))
    \/ bySectionObserver (snd (setup page)) <> [].

(** A section with another height, an entry with another target. *)
Definition withHeight (h : Section -> Z) (s : Section) : Section :=
  {| attr_id := attr_id s; offsetTop := offsetTop s; clientHeight := h s |}.

Definition retarget (g : Section -> Section) (e : Entry) : Entry :=
  {| target := g (target e);
     isIntersecting := isIntersecting e;
     intersectionRatio := intersectionRatio e |}.

End Rules.

(** ** Notifications within one rendering frame *)

Module Frames.

Import Script.

(** The rule "the notifications of one frame cause exactly one
    recomputation, at the most recent scroll position": [runsOf ys] lists
    the scroll positions of the recomputations that a burst [ys] of
    notifications has caused by the end of the frame. *)
Definition oncePerFrame (runsOf : list Z -> list Z) : Prop :=
  forall ys, ys <> [] -> runsOf ys = [last ys 0].

(** The executions of the throttled [onScroll] of [script.js] for a burst
    that reaches the window [w], up to and including the next frame. *)
Definition throttledRuns (w : Window) (ys : list Z) : list Z :=
  skipn (List.length (onScrollRuns w))
        (onScrollRuns (animationFrame (scrollEvents ys w))).

(** The executions of the highlighting scroll listener for a burst. *)
Definition listenerRuns (sections : list Section) (links : list NavLink)
           (ys : list Z) : list Z :=
  Legacy.runs
    (Legacy.scrollEvents sections ys
       {| Legacy.navLinks := links; Legacy.runs := [] |}).

End Frames.

(** ** Pages used as examples *)

Module Scenario.

Definition about : Section :=
  {| attr_id := "about"; offsetTop := 0; clientHeight := 800 |}.

Definition work : Section :=
  {| attr_id := "work"; offsetTop := 800; clientHeight := 1200 |}.

Definition sections : list Section := [about; work].

Definition aboutLink (on : bool) : NavLink :=
  {| href := Some "#about"%string; active := on |}.

Definition workLink (on : bool) : NavLink :=
  {| href := Some "#work"%string; active := on |}.

(** The markup starts with the first link highlighted. *)
Definition links : list NavLink := [aboutLink true; workLink false].

(** Two short sections under a 100 pixel header; at the top of the page
    both lie wholly inside the viewport, also after the root margin of
    the observer is taken off. *)
Definition intro : Section :=
  {| attr_id := "intro"; offsetTop := 100; clientHeight := 50 |}.

Definition skills : Section :=
  {| attr_id := "skills"; offsetTop := 150; clientHeight := 50 |}.

Definition stacked : list Section := [intro; skills].

(** A link to the top of the page. *)
Definition homeLink (on : bool) : NavLink :=
  {| href := Some "#"%string; active := on |}.

(** A section that has collapsed to height 0. *)
Definition collapsed : Section :=
  {| attr_id := "gallery"; offsetTop := 500; clientHeight := 0 |}.

(** A page whose only section starts below a 1000 pixel header. *)
Definition below : Section :=
  {| attr_id := "about"; offsetTop := 1000; clientHeight := 800 |}.

(** Fifty scroll notifications, at positions 1 to 50. *)
Definition burst : list Z := map Z.of_nat (seq 1 50).

(** A page with every kind of observed element. *)
Definition page : Script.Page :=
  {| Script.navLinks := [aboutLink false; workLink false];
     Script.sections := sections;
     Script.revealEls := [ {| Script.is_visible := false |} ];
     Script.skillsOverview :=
       Some [ {| Script.data_progress := Some "90"%string;
                 Script.style_width := None |} ];
     Script.statEls :=
       [ {| Script.data_count := Some "12"%string;
            Script.data_suffix := Some "+"%string;
            Script.textContent := "0"%string |};
         {| Script.data_count := None;
            Script.data_suffix := None;
            Script.textContent := EmptyString |} ] |}.

Definition idle : Script.Window :=
  {| Script.scrollY := 0;
     Script.ticking := false;
     Script.frameRequests := 0;
     Script.navbar := Some false;
     Script.scrollTopBtn := Some false;
     Script.onScrollRuns := [] |}.

End Scenario.

(** ** Mobile menu *)

Module Menu.

(** The element the script focused last, if it focused one. *)
Inductive Focus := OnFirstLink | OnToggle | Elsewhere.

(** What the menu functions read and write: whether [document.body] has
    the class "menu-open"; the [aria-expanded] attribute of
    [.nav-toggle] (outer [None]: no such element); whether [#nav-panel]
    exists and, if so, whether it contains a [.nav-link]; whether
    [.nav-backdrop] exists. *)
Record State := mkState
  { menuOpen : bool;
    navToggle : option (option string);
    navPanel : option bool;
    navBackdrop : bool;
    scriptFocus : Focus }.

(** A handler run: the state it leaves and the error it raised, if any. *)
Record Result := mkResult
  { after : State;
    thrown : option JsError }.

Definition completed (st : State) : Result :=
  {| after := st; thrown := None |}.

(** [navToggle?.setAttribute("aria-expanded", v)]. *)
Definition setExpanded (v : string) (st : State) : State :=
  {| menuOpen := menuOpen st;
     navToggle := option_map (fun _ => Some v) (navToggle st);
     navPanel := navPanel st;
     navBackdrop := navBackdrop st;
     scriptFocus := scriptFocus st |}.

Definition setOpen (b : bool) (st : State) : State :=
  {| menuOpen := b;
     navToggle := navToggle st;
     navPanel := navPanel st;
     navBackdrop := navBackdrop st;
     scriptFocus := scriptFocus st |}.

Definition setFocus (f : Focus) (st : State) : State :=
  {| menuOpen := menuOpen st;
     navToggle := navToggle st;
     navPanel := navPanel st;
     navBackdrop := navBackdrop st;
     scriptFocus := f |}.

(** [qs(".nav-link", navPanel)] passes [navPanel] as the root; the
    default root [document] replaces [undefined] only, so a missing
    panel ([null]) makes [root.querySelector] raise a [TypeError], after
    the class and the attribute have been set. *)
Definition openMenu (st : State) : Result :=
  let st1 := setExpanded "true" (setOpen true st) in
  match navPanel st1 with
  | None => {| after := st1; thrown := Some TypeError |}
  | Some hasLink =>
      completed (if hasLink then setFocus OnFirstLink st1 else st1)
  end.

Definition closeMenu (st : State) : State :=
  setExpanded "false" (setOpen false st).

Definition toggleMenu (st : State) : Result :=
  if menuOpen st then completed (closeMenu st) else openMenu st.

(** The events the script listens to for the menu. *)
Inductive Event :=
| ToggleClick
| BackdropClick
| KeyDown (key : string)
| NavLinkClick.

(** The listener of each event; a listener on a missing element was
    never registered. *)
Definition dispatch (st : State) (ev : Event) : Result :=
  match ev with
  | ToggleClick =>
      match navToggle st with
      | Some _ => toggleMenu st
      | None => completed st
      end
  | BackdropClick =>
      if navBackdrop st then completed (closeMenu st) else completed st
  | KeyDown key =>
      if String.eqb key "Escape" && menuOpen st then
        let st1 := closeMenu st in
        completed
          match navToggle st1 with
          | Some _ => setFocus OnToggle st1
          | None => st1
          end
      else completed st
  | NavLinkClick =>
      if menuOpen st then completed (closeMenu st) else completed st
  end.

(** An error raised by a listener is reported and the page goes on from
    the state the listener left. *)
Definition run (evs : list Event) (st : State) : State :=
  fold_left (fun s ev => after (dispatch s ev)) evs st.

(** [aria-expanded] says what the body class says. *)
Definition expandedAgrees (st : State) : Prop :=
  match navToggle st with
  | Some attr =>
      attr = Some (if menuOpen st then "true" else "false")%string
  | None => True
  end.

End Menu.

(** ** The throttled scroll handler over a whole page view *)

Module Loop.

Import Script.

(** A scroll notification, a rendering frame, or a direct call of
    [onScroll], as made at the end of the script and on
    "DOMContentLoaded". *)
Inductive Event :=
| Scroll (y : Z)
| Frame
| Direct.

Definition step (w : Window) (ev : Event) : Window :=
  match ev with
  | Scroll y => scrollEvent w y
  | Frame => animationFrame w
  | Direct => onScroll w
  end.

Definition run (evs : list Event) (w : Window) : Window :=
  fold_left step evs w.

Definition isFrame (ev : Event) : bool :=
  match ev with Frame => true | _ => false end.

Definition isScroll (ev : Event) : bool :=
  match ev with Scroll _ => true | _ => false end.

Definition isDirect (ev : Event) : bool :=
  match ev with Direct => true | _ => false end.

(** At most one frame request is pending, and [ticking] says whether one
    is. *)
Definition oneRequest (w : Window) : Prop :=
  (ticking w = true /\ frameRequests w = 1%nat)
  \/ (ticking w = false /\ frameRequests w = 0%nat).

End Loop.

(** ** Where the scroll listener stops *)

Module Reach.

(** The position in [sections] of the section that the loop of the
    scroll listener assigned last, counting from [i]. *)
Fixpoint lastAssigned (scrollY : Z) (i : nat) (acc : option nat)
         (sections : list Section) : option nat :=
  match sections with
  | [] => acc
  | section :: rest =>
      lastAssigned scrollY (S i)
        (if scrollY >=? offsetTop section - 200 then Some i else acc)
        rest
  end.

Definition currentIndex (sections : list Section) (scrollY : Z) : option nat :=
  lastAssigned scrollY 0 None sections.

(** Top offsets that do not decrease in document order. *)
Definition ascending (sections : list Section) : Prop :=
  StronglySorted Z.le (map offsetTop sections).

End Reach.

(** ** The reveal, skill-bar and counter observers *)

Module Observers.

(** An element together with whether its observer still watches it. *)
Record Watched (A : Type) := mkWatched
  { el : A;
    watched : bool }.

Arguments mkWatched {A} el watched.
Arguments el {A} w.
Arguments watched {A} w.

(** An entry of one of these observers: its target, by position among
    the elements of the observer, and whether it intersects. *)
Record Notice := mkNotice
  { target : nat;
    isIntersecting : bool }.

Fixpoint updateAt {A : Type} (n : nat) (f : A -> A) (l : list A) : list A :=
  match l, n with
  | [], _ => []
  | x :: rest, O => f x :: rest
  | x :: rest, S m => x :: updateAt m f rest
  end.

Definition unobserved {A : Type} (x : A) : Watched A :=
  {| el := x; watched := false |}.

Definition observed {A : Type} (x : A) : Watched A :=
  {| el := x; watched := true |}.

(** *** Reveal animations *)

(** The reveal block of the set-up, element by element. *)
Definition revealSetup (prefersReducedMotion hasIntersectionObserver : bool)
           (revealEls : list Script.RevealEl)
  : list (Watched Script.RevealEl) :=
  if prefersReducedMotion then
    map (fun e => unobserved (Script.show e)) revealEls
  else if hasIntersectionObserver then
    map observed revealEls
  else
    map (fun e => unobserved (Script.show e)) revealEls.

(** The callback of [revealObserver]: an intersecting target is shown
    and unobserved. *)
Definition revealCallback (entries : list Notice)
           (els : list (Watched Script.RevealEl))
  : list (Watched Script.RevealEl) :=
  fold_left
    (fun els entry =>
       if isIntersecting entry then
         updateAt (target entry) (fun w => unobserved (Script.show (el w))) els
       else els)
    entries els.

Definition shownOrWatched (w : Watched Script.RevealEl) : Prop :=
  Script.is_visible (el w) = true \/ watched w = true.

(** The notifications of a page view, one callback run per batch. *)
Definition revealRuns (batches : list (list Notice))
           (els : list (Watched Script.RevealEl))
  : list (Watched Script.RevealEl) :=
  fold_left (fun els entries => revealCallback entries els) batches els.

(** Whether some intersecting entry of a batch has the element at
    position [n] as its target. *)
Definition reported (n : nat) (entries : list Notice) : bool :=
  existsb (fun entry => isIntersecting entry && Nat.eqb (target entry) n)
          entries.

(** *** Skill bars *)

(** The bars inside [.skills-overview] and whether [skillsObserver]
    still watches the block. *)
Record Skills := mkSkills
  { bars : list Script.SkillFill;
    skillsWatched : bool }.

Section SkillBars.

Variable numberText : string -> string.
Variable cssWidth : string -> option string.
Variable prefersReducedMotion : bool.

(** The skill-bar block of the set-up, for an existing block. *)
Definition skillsSetup (hasIntersectionObserver : bool)
           (fills : list Script.SkillFill) : Skills :=
  if hasIntersectionObserver then
    {| bars := fills; skillsWatched := true |}
  else
    {| bars :=
         Script.animateSkillBars numberText cssWidth prefersReducedMotion
                                 fills;
       skillsWatched := false |}.

(** The callback of [skillsObserver]. *)
Definition skillsCallback (entries : list Notice) (s : Skills) : Skills :=
  fold_left
    (fun s entry =>
       if isIntersecting entry then
         {| bars :=
              Script.animateSkillBars numberText cssWidth prefersReducedMotion
                                      (bars s);
            skillsWatched := false |}
       else s)
    entries s.

End SkillBars.

(** *** Stat counters *)

(** A counter animation in flight: [startTime], [end] and [suffix] of
    the closure of [tick], over the type [num] of JavaScript numbers. *)
Record Animation (num : Type) := mkAnimation
  { startTime : num;
    endValue : num;
    suffix : string }.

Arguments mkAnimation {num} startTime endValue suffix.
Arguments startTime {num} a.
Arguments endValue {num} a.
Arguments suffix {num} a.

(** A [.stat-number] element and the animation running on it, if any. *)
Record Counter (num : Type) := mkCounter
  { stat : Script.StatNumber;
    animation : option (Animation num) }.

Arguments mkCounter {num} stat animation.
Arguments stat {num} c.
Arguments animation {num} c.

Definition setText (el : Script.StatNumber) (s : string) : Script.StatNumber :=
  {| Script.data_count := Script.data_count el;
     Script.data_suffix := Script.data_suffix el;
     Script.textContent := s |}.

Section Counters.

(** JavaScript numbers and what the script does with them.  The numbers
    are IEEE doubles, and nothing is assumed here about the results of
    their arithmetic: [toNumber] is [Number(s)], [numberToText] the text
    of a number in a template literal, [literal] the number an integer
    literal denotes, [sub], [mul] and [div] the operators [-], [*] and
    [/], [min] and [floor] are [Math.min] and [Math.floor], and [lt] is
    [<]. *)
Variable num : Type.
Variable toNumber : string -> num.
Variable numberToText : num -> string.
Variable literal : Z -> num.
Variable sub : num -> num -> num.
Variable mul : num -> num -> num.
Variable div : num -> num -> num.
Variable min : num -> num -> num.
Variable floor : num -> num.
Variable lt : num -> num -> bool.
Variable prefersReducedMotion : bool.

Definition duration : num := literal 900.

(** [t], [eased] and [value] of one [tick] at time [now]. *)
Definition progress (a : Animation num) (now : num) : num :=
  min (div (sub now (startTime a)) duration) (literal 1).

Definition eased (t : num) : num := mul t (sub (literal 2) t).

Definition shownValue (a : Animation num) (now : num) : num :=
  floor (mul (endValue a) (eased (progress a now))).

(** [animateNumber(el)]; [now] is what [performance.now()] returns when
    the animation is started. *)
Definition animateNumber (now : num) (c : Counter num) : Counter num :=
  let end_ := toNumber (Script.orDefault (Script.data_count (stat c)) "0") in
  let suffix_ := Script.orDefault (Script.data_suffix (stat c)) EmptyString in
  if prefersReducedMotion then
    {| stat := setText (stat c) (String.append (numberToText end_) suffix_);
       animation := animation c |}
  else
    {| stat := stat c;
       animation :=
         Some {| startTime := now; endValue := end_; suffix := suffix_ |} |}.

(** One run of [tick] on a counter; a counter without an animation has
    no [tick] queued. *)
Definition tick (now : num) (c : Counter num) : Counter num :=
  match animation c with
  | None => c
  | Some a =>
      let t := progress a now in
      let value := shownValue a now in
      let shown :=
        setText (stat c) (String.append (numberToText value) (suffix a)) in
      if lt t (literal 1) then
        {| stat := shown; animation := Some a |}
      else
        {| stat :=
             setText shown
                     (String.append (numberToText (endValue a)) (suffix a));
           animation := None |}
  end.

(** The frames at times [nows], in order. *)
Definition frames (nows : list num) (c : Counter num) : Counter num :=
  fold_left (fun c now => tick now c) nows c.

End Counters.

Arguments animateNumber {num} toNumber numberToText prefersReducedMotion now c.
Arguments duration {num} literal.
Arguments progress {num} literal sub div min a now.
Arguments eased {num} literal sub mul t.
Arguments shownValue {num} literal sub mul div min floor a now.
Arguments tick {num} numberToText literal sub mul div min floor lt now c.
Arguments frames {num} numberToText literal sub mul div min floor lt nows c.

(** The exact arithmetic of the rationals, as one way to read the
    numbers. *)
Definition exactFloor (x : Q) : Q := inject_Z (Qfloor x).

Definition exactLt (x y : Q) : bool := negb (Qle_bool y x).

End Observers.

(** ** More pages used as examples *)

Module Examples.

Definition closedMenu : Menu.State :=
  {| Menu.menuOpen := false;
     Menu.navToggle := Some (Some "false"%string);
     Menu.navPanel := Some true;
     Menu.navBackdrop := true;
     Menu.scriptFocus := Menu.Elsewhere |}.

Definition pending : Script.Window :=
  {| Script.scrollY := 30;
     Script.ticking := true;
     Script.frameRequests := 1;
     Script.navbar := Some false;
     Script.scrollTopBtn := Some false;
     Script.onScrollRuns := [] |}.

Definition contact : Section :=
  {| attr_id := "contact"; offsetTop := 2000; clientHeight := 400 |}.

Definition threeSections : list Section :=
  [Scenario.about; Scenario.work; contact].

Definition twelve : Script.StatNumber :=
  {| Script.data_count := Some "12"%string;
     Script.data_suffix := Some "+"%string;
     Script.textContent := "0" |}.

End Examples.

(** * Properties *)

Import Script.
Import Rules.
Import Frames.

(** ** Marking of links *)

Lemma hrefIs_remove link s : hrefIs (classList_remove link) s = hrefIs link s.
Proof. reflexivity. Qed.

Lemma mark_eq cur link :
  Legacy.mark cur link = classList_toggle link (hrefIs link (hash cur)).
Proof.
  unfold Legacy.mark. rewrite hrefIs_remove.
  destruct (hrefIs link (hash cur)); reflexivity.
Qed.

Lemma onScrollActive_rescan sections y links :
  Legacy.onScrollActive sections y links
  = rescan (Legacy.current sections y) links.
Proof.
  unfold Legacy.onScrollActive, rescan.
  apply map_ext. intros l. apply mark_eq.
Qed.

Lemma callback_rescan entries links :
  sectionObserverCallback entries links
  = match visible entries with
    | Some v => rescan (attr_id (target v)) links
    | None => links
    end.
Proof. reflexivity. Qed.

Lemma rescan_href id links : map href (rescan id links) = map href links.
Proof.
  unfold rescan. rewrite map_map. apply map_ext. reflexivity.
Qed.

Lemma rescan_marksOnly id links : Tracker.marksOnly id (rescan id links).
Proof.
  unfold Tracker.marksOnly, rescan.
  apply Forall_forall. intros l Hin.
  apply in_map_iff in Hin. destruct Hin as [l0 [<- _]]. reflexivity.
Qed.

Lemma hrefIs_true link s : hrefIs link s = true <-> href link = Some s.
Proof.
  unfold hrefIs. destruct (href link) as [h|].
  - rewrite String.eqb_eq. split; congruence.
  - split; discriminate.
Qed.

Lemma absent_href_filter s links :
  ~ In (Some s) (map href links) ->
  filter (fun l => hrefIs l s) links = [].
Proof.
  induction links as [|k links IH]; simpl; intros Hnotin; [reflexivity|].
  destruct (hrefIs k s) eqn:Hk.
  - apply hrefIs_true in Hk. exfalso. apply Hnotin. left. exact Hk.
  - apply IH. intros Hin. apply Hnotin. right. exact Hin.
Qed.

(** With pairwise distinct [href]s at most one link carries a given one. *)
Lemma distinct_href_single s links :
  NoDup (map href links) ->
  (List.length (filter (fun l => hrefIs l s) links) <= 1)%nat.
Proof.
  induction links as [|l links IH]; simpl; intros Hnd.
  - lia.
  - inversion Hnd as [|? ? Hnotin Hnd']; subst.
    destruct (hrefIs l s) eqn:Hl.
    + apply hrefIs_true in Hl. rewrite Hl in Hnotin.
      rewrite (absent_href_filter s links Hnotin). simpl. lia.
    + apply IH. exact Hnd'.
Qed.

Lemma marksOnly_filter id links :
  Tracker.marksOnly id links ->
  filter active links = filter (fun l => hrefIs l (hash id)) links.
Proof.
  unfold Tracker.marksOnly.
  induction 1 as [|l links Hl _ IH]; simpl; [reflexivity|].
  rewrite Hl, IH. reflexivity.
Qed.

Lemma marksOnly_atMostOne id links :
  NoDup (map href links) ->
  Tracker.marksOnly id links ->
  Tracker.atMostOneActive links.
Proof.
  intros Hnd Hm. unfold Tracker.atMostOneActive, countActive.
  rewrite (marksOnly_filter id links Hm).
  apply distinct_href_single. exact Hnd.
Qed.

(** ** Invariant of the highlighting *)

Section Invariant.

Variable sections : list Section.

Lemma recompute_selected ev id links :
  Tracker.selected sections ev = Some id ->
  Tracker.recompute sections ev links = rescan id links.
Proof.
  destruct ev as [y|entries]; simpl.
  - intros [= <-]. apply onScrollActive_rescan.
  - rewrite callback_rescan.
    destruct (visible entries) as [v|]; simpl; [|discriminate].
    intros [= <-]. reflexivity.
Qed.

Lemma recompute_unselected ev links :
  Tracker.selected sections ev = None ->
  Tracker.recompute sections ev links = links.
Proof.
  destruct ev as [y|entries]; simpl; [discriminate|].
  rewrite callback_rescan.
  destruct (visible entries); simpl; [discriminate|reflexivity].
Qed.

Lemma recompute_href ev links :
  map href (Tracker.recompute sections ev links) = map href links.
Proof.
  destruct (Tracker.selected sections ev) as [id|] eqn:Hsel.
  - rewrite (recompute_selected ev id links Hsel). apply rescan_href.
  - rewrite (recompute_unselected ev links Hsel). reflexivity.
Qed.

Lemma step_Inv st ev :
  NoDup (map href (Tracker.links st)) ->
  Tracker.Inv st ->
  NoDup (map href (Tracker.links (Tracker.step sections st ev)))
  /\ Tracker.Inv (Tracker.step sections st ev).
Proof.
  intros Hnd [Hone Hmark]. split.
  - simpl. rewrite recompute_href. exact Hnd.
  - unfold Tracker.Inv, Tracker.step; simpl.
    destruct (Tracker.selected sections ev) as [id|] eqn:Hsel.
    + rewrite (recompute_selected ev id _ Hsel).
      assert (Tracker.marksOnly id (rescan id (Tracker.links st))) as Hm
        by apply rescan_marksOnly.
      split; [|exact Hm].
      apply (marksOnly_atMostOne id); [|exact Hm].
      rewrite rescan_href. exact Hnd.
    + rewrite (recompute_unselected ev _ Hsel). split; assumption.
Qed.

Lemma run_Inv evs : forall st,
  NoDup (map href (Tracker.links st)) ->
  Tracker.Inv st ->
  Tracker.Inv (Tracker.run sections evs st).
Proof.
  unfold Tracker.run.
  induction evs as [|ev evs IH]; simpl; intros st Hnd Hinv.
  - exact Hinv.
  - destruct (step_Inv st ev Hnd Hinv) as [Hnd' Hinv'].
    apply IH; assumption.
Qed.

End Invariant.

(** C1 (as the code has it).  With pairwise distinct link [href]s: a
    recomputation by either handler that settles on an identifier leaves
    at most one link active, and a link is active exactly when its [href]
    is [#] followed by that identifier, which for the scroll listener is
    the empty string when no section is reached; a recomputation that
    settles on none (the observer callback without an intersecting entry)
    leaves the marking as it was; hence, from a page that starts with at
    most one active link, every sequence of recomputations keeps at most
    one link active, the active one being the link of the latest
    identifier chosen. *)
Theorem C1_at_most_one_active (sections : list Section) (links0 : list NavLink) :
  NoDup (map href links0) ->
  (forall ev id,
      Tracker.selected sections ev = Some id ->
      Tracker.atMostOneActive (Tracker.recompute sections ev links0)
      /\ Tracker.marksOnly id (Tracker.recompute sections ev links0))
  /\ (forall ev,
         Tracker.selected sections ev = None ->
         Tracker.recompute sections ev links0 = links0)
  /\ (Tracker.atMostOneActive links0 ->
      forall evs,
        Tracker.Inv (Tracker.run sections evs (Tracker.start links0))).
Proof.
  intros Hnd. split; [|split].
  - intros ev id Hsel.
    rewrite (recompute_selected sections ev id links0 Hsel).
    assert (Tracker.marksOnly id (rescan id links0)) as Hm
      by apply rescan_marksOnly.
    split; [|exact Hm].
    apply (marksOnly_atMostOne id); [|exact Hm].
    rewrite rescan_href. exact Hnd.
  - intros ev. apply recompute_unselected.
  - intros Hone evs. apply run_Inv.
    + exact Hnd.
    + split; [exact Hone|exact I].
Qed.

Lemma C1_witness :
  NoDup (map href Scenario.links)
  /\ Tracker.atMostOneActive Scenario.links
  /\ Tracker.Inv
       (Tracker.run Scenario.sections
          [Tracker.ByScroll 900; Tracker.ByObserver []; Tracker.ByScroll 0]
          (Tracker.start Scenario.links)).
Proof.
  assert (NoDup (map href Scenario.links)) as Hnd.
  { simpl. constructor.
    - simpl. intros [H|[]]. discriminate H.
    - constructor; [intros []|constructor]. }
  assert (Tracker.atMostOneActive Scenario.links) as Hone.
  { unfold Tracker.atMostOneActive. vm_compute. lia. }
  split; [exact Hnd|]. split; [exact Hone|].
  exact (proj2 (proj2 (C1_at_most_one_active Scenario.sections Scenario.links Hnd))
           Hone _).
Defined.

(** C1 as stated fails in one corner of the scroll listener: on a page
    whose only section starts at 1000, at scroll position 0 no section is
    reached, [current] stays empty, and the link whose [href] is exactly
    [#] is marked active although it names no section. *)
Lemma C1_hash_link_marked : ~ highlightsASection scrollRecompute.
Proof.
  intros Hclaim.
  destruct (Hclaim [Scenario.below] 600 0
              [Scenario.homeLink false; Scenario.aboutLink true]) as [_ Hall].
  - simpl. constructor.
    + simpl. intros [H|[]]. discriminate H.
    + constructor; [intros []|constructor].
  - inversion Hall as [|l ls Hhome _]; subst.
    destruct (Hhome eq_refl) as (s & [<-|[]] & Hhref).
    discriminate Hhref.
Qed.

(** ** Which section is chosen *)

Lemma orZero_eq q : (orZero q == q)%Q.
Proof.
  unfold orZero. destruct (Qeq_bool q 0) eqn:E.
  - apply Qeq_bool_eq in E. symmetry. exact E.
  - reflexivity.
Qed.

Lemma byRatioDesc_le a b :
  Qle_bool (byRatioDesc a b) 0 = true
  <-> (intersectionRatio b <= intersectionRatio a)%Q.
Proof.
  rewrite Qle_bool_iff. unfold byRatioDesc.
  rewrite !orZero_eq. split; intros H; lra.
Qed.

Lemma byRatioDesc_gt a b :
  Qle_bool (byRatioDesc a b) 0 = false
  <-> (intersectionRatio a < intersectionRatio b)%Q.
Proof.
  split.
  - intros H. apply Qnot_le_lt. intros Hle.
    apply byRatioDesc_le in Hle. congruence.
  - intros H. destruct (Qle_bool (byRatioDesc a b) 0) eqn:E; [|reflexivity].
    apply byRatioDesc_le in E. lra.
Qed.

Lemma hd_insertSorted e l :
  hd_error (insertSorted byRatioDesc e l) = better e (hd_error l).
Proof.
  destruct l as [|b l]; simpl; [reflexivity|].
  destruct (Qle_bool (byRatioDesc e b) 0); reflexivity.
Qed.

Lemma visible_cons e entries :
  visible (e :: entries)
  = if isIntersecting e then better e (visible entries) else visible entries.
Proof.
  unfold visible. simpl. destruct (isIntersecting e); [|reflexivity].
  simpl. apply hd_insertSorted.
Qed.

Lemma visible_None entries :
  visible entries = None <-> Forall (fun e => isIntersecting e = false) entries.
Proof.
  induction entries as [|e entries IH].
  - split; [constructor|reflexivity].
  - rewrite visible_cons. destruct (isIntersecting e) eqn:He.
    + split.
      * unfold better. destruct (visible entries) as [b|];
          [destruct (Qle_bool (byRatioDesc e b) 0)|]; discriminate.
      * intros H. inversion H; subst. congruence.
    + rewrite IH. split; intros H.
      * constructor; assumption.
      * inversion H; assumption.
Qed.

Lemma visible_Some entries : forall v,
  visible entries = Some v -> firstMostVisible entries v.
Proof.
  induction entries as [|e entries IH]; intros v Hv.
  - discriminate Hv.
  - rewrite visible_cons in Hv. destruct (isIntersecting e) eqn:He.
    + destruct (visible entries) as [b|] eqn:Hb; simpl in Hv.
      * destruct (IH b eq_refl) as (pre & post & Heq & Hb1 & Hpre & Hpost).
        destruct (Qle_bool (byRatioDesc e b) 0) eqn:Hcmp;
          injection Hv as <-.
        -- apply byRatioDesc_le in Hcmp.
           exists [], entries. repeat split; [exact He|constructor|].
           rewrite Heq. apply Forall_app. split.
           ++ eapply Forall_impl; [|exact Hpre]. simpl. intros a Ha Hi.
              specialize (Ha Hi). lra.
           ++ constructor; [intros _; exact Hcmp|].
              eapply Forall_impl; [|exact Hpost]. simpl. intros a Ha Hi.
              specialize (Ha Hi). lra.
        -- apply byRatioDesc_gt in Hcmp.
           exists (e :: pre), post. rewrite Heq. repeat split.
           ++ exact Hb1.
           ++ constructor; [intros _; exact Hcmp|exact Hpre].
           ++ exact Hpost.
      * injection Hv as <-.
        apply visible_None in Hb.
        exists [], entries. repeat split; [exact He|constructor|].
        eapply Forall_impl; [|exact Hb]. simpl. intros a Ha Hi. congruence.
    + destruct (IH v Hv) as (pre & post & Heq & Hb1 & Hpre & Hpost).
      exists (e :: pre), post. rewrite Heq. repeat split.
      * exact Hb1.
      * constructor; [intros Hi; congruence|exact Hpre].
      * exact Hpost.
Qed.

(** The scroll listener: one more section at the end of the page. *)
Lemma current_snoc sections s y :
  Legacy.current (sections ++ [s]) y
  = if y >=? offsetTop s - 200 then attr_id s else Legacy.current sections y.
Proof.
  unfold Legacy.current. rewrite fold_left_app. reflexivity.
Qed.

Lemma current_lastReached sections y s :
  lastReached sections y s -> Legacy.current sections y = attr_id s.
Proof.
  intros (pre & post & -> & Hs & Hpost). revert Hpost.
  induction post as [|t post IH] using rev_ind; intros Hpost.
  - rewrite current_snoc.
    destruct (y >=? offsetTop s - 200) eqn:E; [reflexivity|lia].
  - apply Forall_app in Hpost. destruct Hpost as [Hpost Ht].
    inversion Ht as [|? ? Ht' _]; subst.
    replace (pre ++ s :: post ++ [t]) with ((pre ++ s :: post) ++ [t])
      by (rewrite <- app_assoc; reflexivity).
    rewrite current_snoc.
    destruct (y >=? offsetTop t - 200) eqn:E; [lia|].
    apply IH. exact Hpost.
Qed.

Lemma current_cases sections y :
  (Legacy.current sections y = EmptyString
   /\ Forall (fun t => y < offsetTop t - 200) sections)
  \/ (exists s, lastReached sections y s).
Proof.
  induction sections as [|t sections IH] using rev_ind.
  - left. split; [reflexivity|constructor].
  - destruct (y >=? offsetTop t - 200) eqn:E.
    + right. exists t, sections, []. repeat split; [lia|constructor].
    + destruct IH as [[Hc Hall]|(s & pre & post & -> & Hs & Hpost)].
      * left. rewrite current_snoc, E. split; [exact Hc|].
        apply Forall_app. split; [exact Hall|].
        constructor; [lia|constructor].
      * right. exists s, pre, (post ++ [t]). repeat split.
        -- rewrite <- app_assoc. reflexivity.
        -- exact Hs.
        -- apply Forall_app. split; [exact Hpost|].
           constructor; [lia|constructor].
Qed.

Lemma firstMostVisible_visible entries v :
  firstMostVisible entries v -> visible entries = Some v.
Proof.
  intros (pre & post & -> & Hv & Hpre & Hpost).
  induction pre as [|e pre IH]; simpl.
  - rewrite visible_cons, Hv.
    destruct (visible post) as [b|] eqn:Hb; simpl; [|reflexivity].
    destruct (visible_Some post b Hb) as (p1 & p2 & Heq & Hbi & _ & _).
    assert (intersectionRatio b <= intersectionRatio v)%Q as Hle.
    { rewrite Forall_forall in Hpost. apply Hpost; [|exact Hbi].
      rewrite Heq. apply in_elt. }
    apply byRatioDesc_le in Hle. rewrite Hle. reflexivity.
  - inversion Hpre as [|? ? He Hpre']; subst.
    rewrite visible_cons, (IH Hpre').
    destruct (isIntersecting e) eqn:Hi; [|reflexivity].
    simpl. specialize (He eq_refl).
    apply byRatioDesc_gt in He. rewrite He. reflexivity.
Qed.

(** C2 (as the code has it).  The observer callback selects, among the
    entries it is handed that intersect, the one with the highest
    intersection ratio, and the first of them in entry order on a tie;
    it selects nothing exactly when no entry intersects.  The scroll
    listener does not look at ratios: it selects the last section in
    document order whose top offset minus 200 is at most the scroll
    position, and the empty identifier when there is none. *)
Theorem C2_selection_rules :
  (forall entries v, visible entries = Some v <-> firstMostVisible entries v)
  /\ (forall entries,
         visible entries = None
         <-> Forall (fun e => isIntersecting e = false) entries)
  /\ (forall sections y,
         (Forall (fun t => y < offsetTop t - 200) sections
          /\ Legacy.current sections y = EmptyString)
         \/ (exists s, lastReached sections y s
                       /\ Legacy.current sections y = attr_id s)).
Proof.
  split; [|split].
  - intros entries v. split.
    + apply visible_Some.
    + apply firstMostVisible_visible.
  - apply visible_None.
  - intros sections y.
    destruct (current_cases sections y) as [[Hc Hall]|[s Hs]].
    + left. split; assumption.
    + right. exists s. split; [exact Hs|].
      apply current_lastReached. exact Hs.
Qed.

Lemma stacked_tie (root : Z -> Z -> Viewport.Root) :
  Viewport.observe (root 600 0) Scenario.stacked
  = [ {| target := Scenario.intro;
         isIntersecting := true;
         intersectionRatio := 50 # 50 |};
      {| target := Scenario.skills;
         isIntersecting := true;
         intersectionRatio := 50 # 50 |} ] ->
  firstMostVisible (Viewport.observe (root 600 0) Scenario.stacked)
    {| target := Scenario.intro;
       isIntersecting := true;
       intersectionRatio := 50 # 50 |}.
Proof.
  intros ->.
  exists [], [ {| target := Scenario.skills;
                  isIntersecting := true;
                  intersectionRatio := 50 # 50 |} ].
  repeat split.
  - constructor.
  - constructor; [|constructor]. intros _. apply Qle_refl.
Qed.

Lemma stacked_refutes (root : Z -> Z -> Viewport.Root) :
  Viewport.observe (root 600 0) Scenario.stacked
  = [ {| target := Scenario.intro;
         isIntersecting := true;
         intersectionRatio := 50 # 50 |};
      {| target := Scenario.skills;
         isIntersecting := true;
         intersectionRatio := 50 # 50 |} ] ->
  ~ choosesMostVisible root scrollSelect.
Proof.
  intros Hobs Hclaim.
  specialize (Hclaim Scenario.stacked 600 0 _ (stacked_tie root Hobs)).
  discriminate Hclaim.
Qed.

(** C2 as stated fails for the scroll listener: the two short sections
    [intro] and [skills] lie wholly inside a 600 pixel viewport at scroll
    position 0, also inside the root of the observer, so their ratios are
    equal and the rule asks for [intro], the first in document order; the
    listener selects [skills]. *)
Lemma C2_scroll_listener_ignores_ratio :
  ~ choosesMostVisible Viewport.viewport scrollSelect
  /\ ~ choosesMostVisible (Viewport.observerRoot None) scrollSelect.
Proof.
  split; apply stacked_refutes; reflexivity.
Qed.

Lemma C2_witness :
  visible (Viewport.observe (Viewport.viewport 600 0) Scenario.stacked)
  = Some {| target := Scenario.intro;
            isIntersecting := true;
            intersectionRatio := 50 # 50 |}.
Proof.
  apply (proj2 (proj1 C2_selection_rules _ _)).
  apply (stacked_tie Viewport.viewport). reflexivity.
Defined.

(** ** When no section is in view *)

Lemma callback_no_intersection entries links :
  Forall (fun e => isIntersecting e = false) entries ->
  sectionObserverCallback entries links = links.
Proof.
  intros Hnone. apply visible_None in Hnone.
  unfold sectionObserverCallback. rewrite Hnone. reflexivity.
Qed.

Lemma observe_no_intersection r sections :
  Forall (fun s => Viewport.intersects r s = false) sections ->
  Forall (fun e => isIntersecting e = false) (Viewport.observe r sections).
Proof.
  unfold Viewport.observe. intros H. apply Forall_map.
  eapply Forall_impl; [|exact H]. simpl. intros s Hs. exact Hs.
Qed.

Lemma rootInsetBottom_nonneg vh : 0 <= vh -> 0 <= rootInsetBottom vh.
Proof.
  intros H. unfold rootInsetBottom. apply Z.div_pos; lia.
Qed.

(** The root of the observer lies inside the viewport. *)
Lemma observerRoot_inside navbarHeight vh y s :
  0 <= vh ->
  Viewport.intersects (Viewport.viewport vh y) s = false ->
  Viewport.intersects (Viewport.observerRoot navbarHeight vh y) s = false.
Proof.
  intros Hvh. pose proof (rootInsetBottom_nonneg vh Hvh) as Hb.
  unfold Viewport.intersects, Viewport.overlap, Viewport.viewport,
    Viewport.observerRoot, rootInsetTop; simpl.
  rewrite !Z.ltb_ge. lia.
Qed.

Lemma current_none_reached sections y :
  Forall (fun t => y < offsetTop t - 200) sections ->
  Legacy.current sections y = EmptyString.
Proof.
  induction sections as [|t sections IH] using rev_ind; intros H.
  - reflexivity.
  - apply Forall_app in H. destruct H as [H Ht].
    inversion Ht as [|? ? Ht' _]; subst.
    rewrite current_snoc.
    destruct (y >=? offsetTop t - 200) eqn:E; [lia|].
    apply IH. exact H.
Qed.

(** C3 (as the code has it).  When the observer callback runs and no
    entry intersects, in particular on the observations of a page none
    of whose sections intersects the viewport, the marking of every link
    is left exactly as it was.  The scroll listener keeps nothing: it
    re-marks every link from the scroll position, and where no section
    has its top offset minus 200 at or below the scroll position it
    leaves active only a link whose [href] is exactly [#]. *)
Theorem C3_nothing_in_view (links : list NavLink) :
  (forall entries,
      Forall (fun e => isIntersecting e = false) entries ->
      sectionObserverCallback entries links = links)
  /\ keepsMarkingOffSections (observerRecompute Viewport.viewport)
  /\ (forall navbarHeight sections vh y,
         0 <= vh ->
         Forall (fun s => Viewport.intersects (Viewport.viewport vh y) s = false)
                sections ->
         observerRecompute (Viewport.observerRoot navbarHeight) sections vh y
                           links
         = links)
  /\ (forall sections y,
         Forall (fun t => y < offsetTop t - 200) sections ->
         Legacy.onScrollActive sections y links = rescan EmptyString links).
Proof.
  split; [|split; [|split]].
  - intros entries. apply callback_no_intersection.
  - intros sections vh y ls _ Hnone. unfold observerRecompute.
    apply callback_no_intersection, observe_no_intersection. exact Hnone.
  - intros navbarHeight sections vh y Hvh Hnone. unfold observerRecompute.
    apply callback_no_intersection, observe_no_intersection.
    eapply Forall_impl; [|exact Hnone]. simpl. intros s.
    apply observerRoot_inside. exact Hvh.
  - intros sections y Hnone.
    rewrite onScrollActive_rescan, (current_none_reached sections y Hnone).
    reflexivity.
Qed.

Lemma C3_witness :
  Forall (fun s => Viewport.intersects (Viewport.viewport 600 0) s = false)
         [Scenario.below]
  /\ observerRecompute Viewport.viewport [Scenario.below] 600 0 Scenario.links
     = Scenario.links.
Proof.
  assert (Forall
            (fun s => Viewport.intersects (Viewport.viewport 600 0) s = false)
            [Scenario.below])
    as Hnone by (constructor; [reflexivity|constructor]).
  split; [exact Hnone|].
  apply (proj1 (proj2 (C3_nothing_in_view Scenario.links))).
  - constructor. reflexivity.
  - exact Hnone.
Defined.

(** C3 as stated fails for the scroll listener: on a page whose only
    section starts at 1000, scrolling to 900 marks its link, and scrolling
    back to 0, where the 600 pixel viewport meets no section, unmarks
    it. *)
Lemma C3_scroll_listener_clears : ~ keepsMarkingOffSections scrollRecompute.
Proof.
  intros Hclaim.
  pose (marked := scrollRecompute [Scenario.below] 600 900
                    [Scenario.aboutLink false]).
  assert (marked = [Scenario.aboutLink true]) as Hmarked by reflexivity.
  specialize (Hclaim [Scenario.below] 600 0 marked).
  rewrite Hmarked in Hclaim.
  assert (scrollRecompute [Scenario.below] 600 0 [Scenario.aboutLink true]
          = [Scenario.aboutLink false]) as Hrun by reflexivity.
  rewrite Hrun in Hclaim.
  assert ([Scenario.aboutLink false] = [Scenario.aboutLink true]) as Habs.
  { apply Hclaim.
    - constructor. reflexivity.
    - constructor; [reflexivity|constructor]. }
  discriminate Habs.
Qed.

(** ** The two-section scenario *)

(** C4.  With sections about (top 0, height 800) and work (top 800,
    height 1200) and scroll position 900, the scroll listener settles on
    "work": whatever the links were, every link whose [href] is [#work]
    ends active and every link whose [href] is [#about] ends inactive;
    the viewport height, 600 in the scenario, is not consulted. *)
Theorem C4_work_scenario :
  Legacy.current Scenario.sections 900 = "work"%string
  /\ (forall links l,
         In l (Legacy.onScrollActive Scenario.sections 900 links) ->
         (href l = Some "#work"%string -> active l = true)
         /\ (href l = Some "#about"%string -> active l = false))
  /\ Legacy.onScrollActive Scenario.sections 900
       [Scenario.aboutLink true; Scenario.workLink false]
     = [Scenario.aboutLink false; Scenario.workLink true].
Proof.
  split; [reflexivity|]. split; [|reflexivity].
  intros links l Hin.
  rewrite onScrollActive_rescan in Hin.
  change (Legacy.current Scenario.sections 900) with "work"%string in Hin.
  pose proof (rescan_marksOnly "work" links) as Hm.
  unfold Tracker.marksOnly in Hm. rewrite Forall_forall in Hm.
  specialize (Hm l Hin). rewrite Hm. split; intros Hh.
  - apply hrefIs_true. exact Hh.
  - unfold hrefIs. rewrite Hh. reflexivity.
Qed.

Lemma C4_witness :
  In (Scenario.workLink true)
     (Legacy.onScrollActive Scenario.sections 900 Scenario.links)
  /\ active (Scenario.workLink true) = true.
Proof.
  assert (In (Scenario.workLink true)
             (Legacy.onScrollActive Scenario.sections 900 Scenario.links))
    as Hin by (right; left; reflexivity).
  split; [exact Hin|].
  exact (proj1 (proj1 (proj2 C4_work_scenario) Scenario.links
                  (Scenario.workLink true) Hin)
           eq_refl).
Defined.

(** ** Empty pages *)

(** C9 (as the code has it).  With no links either handler returns the
    empty link list.  With no sections the observer is never created and
    its callback, run on no entries, changes nothing; the scroll listener
    still re-marks: it leaves active only a link whose [href] is exactly
    [#]. *)
Theorem C9_empty_sets :
  (forall sections y, Legacy.onScrollActive sections y [] = [])
  /\ (forall entries, sectionObserverCallback entries [] = [])
  /\ (forall links, sectionObserverCallback [] links = links)
  /\ (forall root, noopOnEmpty (observerRecompute root))
  /\ (forall numberText cssWidth prm io page,
         sections page = [] ->
         bySectionObserver (snd (init numberText cssWidth prm io page)) = []
         /\ navLinks (fst (init numberText cssWidth prm io page))
            = navLinks page)
  /\ (forall y links,
         Legacy.onScrollActive [] y links = rescan EmptyString links).
Proof.
  repeat split.
  - intros entries. unfold sectionObserverCallback.
    destruct (visible entries); reflexivity.
  - intros root sections vh y links [-> | ->]; unfold observerRecompute.
    + reflexivity.
    + unfold sectionObserverCallback.
      destruct (visible _); reflexivity.
  - unfold init. rewrite H. rewrite andb_false_r.
    destruct prm, io, (skillsOverview page);
      try destruct (negb _ && _); reflexivity.
  - unfold init.
    destruct prm, io, (skillsOverview page), (sections page);
      try destruct (negb _ && _); reflexivity.
  - intros y links. rewrite onScrollActive_rescan. reflexivity.
Qed.

Lemma C9_witness :
  bySectionObserver
    (snd (init (fun s => s) (fun w => Some w) false true
            {| navLinks := Scenario.links;
               sections := [];
               revealEls := [];
               skillsOverview := None;
               statEls := [] |})) = [].
Proof.
  apply (proj1 (proj2 (proj2 (proj2 (proj2 C9_empty_sets))))
           (fun s => s) (fun w => Some w) false true
           {| navLinks := Scenario.links;
              sections := [];
              revealEls := [];
              skillsOverview := None;
              statEls := [] |}).
  reflexivity.
Defined.

(** C9 as stated fails for the scroll listener: on a page without
    sections whose markup highlights the first link, a scroll
    notification removes the highlight. *)
Lemma C9_scroll_listener_unmarks : ~ noopOnEmpty scrollRecompute.
Proof.
  intros Hclaim.
  specialize (Hclaim [] 600 0 [Scenario.aboutLink true] (or_introl eq_refl)).
  discriminate Hclaim.
Qed.

(** ** Scroll notifications and frames *)

Lemma last_nonempty (x : Z) (l : list Z) (d d' : Z) :
  last (x :: l) d = last (x :: l) d'.
Proof.
  revert x. induction l as [|z l IH]; intros x; [reflexivity|].
  change (last (z :: l) d = last (z :: l) d'). apply IH.
Qed.

Lemma scrollEvents_ticking ys : forall w,
  ticking w = true ->
  scrollEvents ys w
  = {| scrollY := last ys (scrollY w);
       ticking := true;
       frameRequests := frameRequests w;
       navbar := navbar w;
       scrollTopBtn := scrollTopBtn w;
       onScrollRuns := onScrollRuns w |}.
Proof.
  unfold scrollEvents.
  induction ys as [|y ys IH]; intros w Hw; simpl fold_left.
  - destruct w; simpl in *. subst. reflexivity.
  - rewrite IH.
    + unfold scrollEvent, scrollListener; simpl ticking. rewrite Hw.
      simpl. destruct ys as [|z ys]; [reflexivity|].
      rewrite (last_nonempty z ys y (scrollY w)). reflexivity.
    + unfold scrollEvent, scrollListener; simpl ticking. rewrite Hw. reflexivity.
Qed.

Lemma scrollEvents_idle y ys w :
  ticking w = false ->
  scrollEvents (y :: ys) w
  = {| scrollY := last (y :: ys) 0;
       ticking := true;
       frameRequests := S (frameRequests w);
       navbar := navbar w;
       scrollTopBtn := scrollTopBtn w;
       onScrollRuns := onScrollRuns w |}.
Proof.
  intros Hw. unfold scrollEvents. simpl fold_left.
  fold (scrollEvents ys (scrollEvent w y)).
  rewrite scrollEvents_ticking.
  - unfold scrollEvent, scrollListener; simpl ticking. rewrite Hw.
    simpl. destruct ys as [|z ys]; [reflexivity|].
    rewrite (last_nonempty z ys y 0). reflexivity.
  - unfold scrollEvent, scrollListener; simpl ticking. rewrite Hw. reflexivity.
Qed.

Lemma legacy_runs sections ys : forall st,
  Legacy.runs (Legacy.scrollEvents sections ys st) = Legacy.runs st ++ ys.
Proof.
  unfold Legacy.scrollEvents.
  induction ys as [|y ys IH]; intros st; simpl.
  - rewrite app_nil_r. reflexivity.
  - rewrite IH. simpl. rewrite <- app_assoc. reflexivity.
Qed.

Lemma skipn_length_app (l l' : list Z) : skipn (List.length l) (l ++ l') = l'.
Proof. induction l as [|x l IH]; simpl; [reflexivity|exact IH]. Qed.

Lemma frame_after_burst w ys :
  ticking w = false ->
  frameRequests w = 0%nat ->
  ys <> [] ->
  animationFrame (scrollEvents ys w)
  = {| scrollY := last ys 0;
       ticking := false;
       frameRequests := 0;
       navbar := option_map (fun _ => last ys 0 >? 20) (navbar w);
       scrollTopBtn := option_map (fun _ => last ys 0 >? 500) (scrollTopBtn w);
       onScrollRuns := onScrollRuns w ++ [last ys 0] |}.
Proof.
  intros Hidle Hnone Hys. destruct ys as [|y ys]; [contradiction|].
  rewrite (scrollEvents_idle y ys w Hidle), Hnone.
  generalize (last (y :: ys) 0). intros z.
  unfold animationFrame, onScroll, pageYOffset; simpl.
  destruct (z =? 0); reflexivity.
Qed.

(** C5 (as the code has it).  In [script.js] the throttled [onScroll],
    which sets the "scrolled" class of the navbar and the "visible" class
    of the scroll-to-top button, runs exactly once at the frame that
    follows a burst of scroll notifications reaching a window with no
    frame request pending, and reads the most recent scroll position; the
    frame leaves no request pending.  The highlighting scroll listener
    is not rate-limited: it recomputes once per notification, each time
    at the position of that notification. *)
Theorem C5_frames (w : Window) :
  ticking w = false ->
  frameRequests w = 0%nat ->
  oncePerFrame (throttledRuns w)
  /\ (forall ys,
         ys <> [] ->
         let w' := animationFrame (scrollEvents ys w) in
         ticking w' = false
         /\ frameRequests w' = 0%nat
         /\ navbar w' = option_map (fun _ => last ys 0 >? 20) (navbar w)
         /\ scrollTopBtn w'
            = option_map (fun _ => last ys 0 >? 500) (scrollTopBtn w)
         /\ animationFrame w' = w')
  /\ (forall sections links ys, listenerRuns sections links ys = ys).
Proof.
  intros Hidle Hnone. split; [|split].
  - intros ys Hys. unfold throttledRuns.
    rewrite (frame_after_burst w ys Hidle Hnone Hys). simpl onScrollRuns.
    apply skipn_length_app.
  - intros ys Hys. cbv zeta.
    rewrite (frame_after_burst w ys Hidle Hnone Hys).
    repeat split.
  - intros sections links ys. unfold listenerRuns.
    rewrite legacy_runs. reflexivity.
Qed.

Lemma C5_witness :
  ticking Scenario.idle = false
  /\ frameRequests Scenario.idle = 0%nat
  /\ throttledRuns Scenario.idle Scenario.burst = [50].
Proof.
  split; [reflexivity|]. split; [reflexivity|].
  apply (proj1 (C5_frames Scenario.idle eq_refl eq_refl) Scenario.burst).
  discriminate.
Defined.

(** C5 as stated fails for the highlighting scroll listener: fifty
    notifications within one frame cause fifty recomputations, not one. *)
Lemma C5_listener_not_coalesced :
  ~ oncePerFrame (listenerRuns Scenario.sections Scenario.links).
Proof.
  intros Hclaim.
  specialize (Hclaim Scenario.burst).
  unfold listenerRuns in Hclaim. rewrite legacy_runs in Hclaim.
  assert (Scenario.burst <> []) as Hne by discriminate.
  specialize (Hclaim Hne). vm_compute in Hclaim. discriminate Hclaim.
Qed.

(** ** Degenerate sections *)

Lemma current_withHeight h sections y :
  Legacy.current (map (withHeight h) sections) y = Legacy.current sections y.
Proof.
  induction sections as [|t sections IH] using rev_ind; [reflexivity|].
  rewrite map_app. simpl map. rewrite !current_snoc, IH. reflexivity.
Qed.

Lemma firstMostVisible_retarget g entries v :
  firstMostVisible entries v ->
  firstMostVisible (map (retarget g) entries) (retarget g v).
Proof.
  intros (pre & post & -> & Hv & Hpre & Hpost).
  exists (map (retarget g) pre), (map (retarget g) post).
  rewrite map_app. simpl map. repeat split.
  - exact Hv.
  - apply Forall_map. exact Hpre.
  - apply Forall_map. exact Hpost.
Qed.

(** C6 (as the code has it).  Neither handler can fail, and neither sets
    a section aside for its box.  The scroll listener never looks at
    heights: changing the heights of the sections changes nothing in its
    choice; and it selects a section whose top offset is zero or negative
    like any other, for instance the only section of a page at every
    scroll position from -200 on.  The observer callback selects by the
    intersection flag and ratio of the entries alone, whatever the boxes
    of their targets. *)
Theorem C6_degenerate_sections :
  (forall h sections y,
      Legacy.current (map (withHeight h) sections) y
      = Legacy.current sections y)
  /\ (forall s y,
         offsetTop s <= 0 -> -200 <= y ->
         Legacy.current [s] y = attr_id s)
  /\ (forall g entries v,
         visible entries = Some v ->
         visible (map (retarget g) entries) = Some (retarget g v)).
Proof.
  split; [|split].
  - apply current_withHeight.
  - intros s y Htop Hy. unfold Legacy.current. simpl.
    destruct (y >=? offsetTop s - 200) eqn:E; [reflexivity|lia].
  - intros g entries v Hv.
    apply firstMostVisible_visible, firstMostVisible_retarget, visible_Some.
    exact Hv.
Qed.

Lemma C6_witness :
  offsetTop Scenario.about <= 0
  /\ -200 <= 0
  /\ Legacy.current [Scenario.about] 0 = "about"%string.
Proof.
  assert (offsetTop Scenario.about <= 0) as Htop by (simpl; lia).
  assert (-200 <= 0) as Hy by lia.
  split; [exact Htop|]. split; [exact Hy|].
  exact (proj1 (proj2 C6_degenerate_sections) Scenario.about 0 Htop Hy).
Defined.

(** C6 as stated fails: the section "about" of the two-section scenario
    has top offset 0, and at scroll position 0 the scroll listener
    selects it; a section of height 0 at top 500 is selected at scroll
    position 400. *)
Lemma C6_zero_offset_selected :
  ~ excludesDegenerate scrollSelect
  /\ scrollSelect [Scenario.collapsed] 600 400 = Some "gallery"%string.
Proof.
  split; [|reflexivity].
  intros Hclaim.
  apply (Hclaim Scenario.sections 600 0 Scenario.about).
  - left. reflexivity.
  - right. simpl. lia.
  - reflexivity.
Qed.

(** ** Without an intersection observer *)

Lemma animateSkillBars_settled
      (numberText : string -> string) (cssWidth : string -> option string)
      (prm : bool) (bars : list SkillFill) :
  animateSkillBars numberText cssWidth prm bars
  = map (fun bar =>
           let w :=
             String.append (numberText (orDefault (data_progress bar) "0"))
                           "%" in
           {| data_progress := data_progress bar;
              style_width :=
                match cssWidth w with
                | Some v => Some v
                | None =>
                    if prm then style_width bar
                    else match cssWidth "0%"%string with
                         | Some zero => Some zero
                         | None => style_width bar
                         end
                end |})
        bars.
Proof.
  unfold animateSkillBars. apply map_ext. intros [progress width].
  unfold setWidth; simpl.
  destruct prm; simpl.
  - destruct (cssWidth
                (String.append (numberText (orDefault progress "0")) "%"));
      reflexivity.
  - destruct (cssWidth "0%"%string); simpl;
      destruct (cssWidth
                  (String.append (numberText (orDefault progress "0")) "%"));
      reflexivity.
Qed.

(** C7 (as the code has it).  Without [IntersectionObserver] the set-up
    shows every reveal element; in an existing skills block it gives
    every bar as width the text of its progress followed by [%] when the
    style setter takes that value, and a bar whose value the setter
    drops keeps its width under reduced motion and is otherwise left at
    the width written first, [0%]; it writes count and suffix into every
    stat counter whose [data-count] is a non-empty string, leaving the
    other counters as they are; for the navigation links it does nothing:
    their marking stays as the markup has it and no observer watches
    anything. *)
Theorem C7_without_observer
        (numberText : string -> string) (cssWidth : string -> option string)
        (prm : bool) (page : Page) :
  let result := init numberText cssWidth prm false page in
  Forall (fun el => is_visible el = true) (revealEls (fst result))
  /\ skillsOverview (fst result)
     = option_map
         (map (fun bar =>
                 let w :=
                   String.append
                     (numberText (orDefault (data_progress bar) "0")) "%" in
                 {| data_progress := data_progress bar;
                    style_width :=
                      match cssWidth w with
                      | Some v => Some v
                      | None =>
                          if prm then style_width bar
                          else match cssWidth "0%"%string with
                               | Some zero => Some zero
                               | None => style_width bar
                               end
                      end |}))
         (skillsOverview page)
  /\ statEls (fst result)
     = map (fun el =>
              match data_count el with
              | Some (String c e) =>
                  {| data_count := data_count el;
                     data_suffix := data_suffix el;
                     textContent :=
                       String.append (String c e)
                                     (orDefault (data_suffix el) EmptyString) |}
              | _ => el
              end)
           (statEls page)
  /\ navLinks (fst result) = navLinks page
  /\ snd result
     = {| bySectionObserver := [];
          byRevealObserver := [];
          bySkillsObserver := false;
          byStatsObserver := [] |}.
Proof.
  cbv zeta. unfold init. rewrite andb_false_r. simpl andb.
  assert (Forall (fun el => is_visible el = true) (map show (revealEls page)))
    as Hshown.
  { apply Forall_map. apply Forall_forall. intros el _. reflexivity. }
  pose proof (animateSkillBars_settled numberText cssWidth prm) as Hbars.
  cbv zeta in Hbars.
  assert (map showCount (statEls page)
          = map (fun el =>
                   match data_count el with
                   | Some (String c e) =>
                       {| data_count := data_count el;
                          data_suffix := data_suffix el;
                          textContent :=
                            String.append (String c e)
                              (orDefault (data_suffix el) EmptyString) |}
                   | _ => el
                   end)
                (statEls page)) as Hstats.
  { apply map_ext. intros el. unfold showCount, truthy.
    destruct (data_count el) as [[|c e]|]; reflexivity. }
  destruct prm, (skillsOverview page) as [bars|]; simpl;
    rewrite ?Hbars, ?Hstats; repeat split; exact Hshown.
Qed.

(** C7 as stated fails for the navigation highlighting: without
    [IntersectionObserver] the set-up of the example page, which has
    sections and links, marks no link and asks no observer to watch a
    section. *)
Lemma C7_navigation_left_unset :
  ~ fallbackMarksNavigation (init (fun s => s) (fun w => Some w) false false).
Proof.
  intros Hclaim.
  destruct (Hclaim Scenario.page) as [Hmarked|Hwatched].
  - discriminate.
  - discriminate.
  - inversion Hmarked as [? ? H|? ? H]; subst.
    + discriminate H.
    + inversion H as [? ? H'|? ? H']; subst.
      * discriminate H'.
      * inversion H'.
  - apply Hwatched. reflexivity.
Qed.

(** ** Exceptions *)

(** C8 (the failing handler).  On a page without an element of id
    "navbar" the navbar scroll effect of the scroll-driven script raises a
    [TypeError] at every scroll position, while the throttled [onScroll]
    of [script.js], which tests [navbar] first, runs to completion and
    leaves the missing elements missing. *)
Theorem C8_missing_navbar_throws (scrollY : Z) :
  Legacy.navbarScrollEffect None scrollY = Throw TypeError
  /\ (forall w,
         navbar w = None ->
         navbar (onScroll w) = None /\ ticking (onScroll w) = false).
Proof.
  split.
  - unfold Legacy.navbarScrollEffect. destruct (scrollY >? 50); reflexivity.
  - intros w Hw. unfold onScroll; simpl. rewrite Hw. split; reflexivity.
Qed.

(** ** The two implementations side by side *)




(** * Further properties of the scripts *)

(** ** Mobile menu *)

Lemma closeMenu_agrees st : Menu.expandedAgrees (Menu.closeMenu st).
Proof.
  unfold Menu.expandedAgrees, Menu.closeMenu, Menu.setExpanded, Menu.setOpen.
  simpl. destruct (Menu.navToggle st); simpl; reflexivity.
Qed.

Lemma openMenu_agrees st : Menu.expandedAgrees (Menu.after (Menu.openMenu st)).
Proof.
  unfold Menu.expandedAgrees, Menu.openMenu, Menu.setExpanded, Menu.setOpen.
  simpl. destruct (Menu.navPanel st) as [[|]|], (Menu.navToggle st);
    simpl; reflexivity.
Qed.

Lemma dispatch_agrees st ev :
  Menu.expandedAgrees st ->
  Menu.expandedAgrees (Menu.after (Menu.dispatch st ev)).
Proof.
  intros Hst. destruct ev as [| |key|]; simpl.
  - destruct (Menu.navToggle st) eqn:Ht; [|exact Hst].
    unfold Menu.toggleMenu. destruct (Menu.menuOpen st).
    + apply closeMenu_agrees.
    + apply openMenu_agrees.
  - destruct (Menu.navBackdrop st); [apply closeMenu_agrees|exact Hst].
  - destruct (String.eqb key "Escape" && Menu.menuOpen st); [|exact Hst].
    unfold Menu.expandedAgrees, Menu.closeMenu, Menu.setExpanded,
      Menu.setOpen; simpl.
    destruct (Menu.navToggle st); simpl; reflexivity.
  - destruct (Menu.menuOpen st) eqn:Ho; [apply closeMenu_agrees|exact Hst].
Qed.

(** X1.  [aria-expanded] of the menu button follows the menu.
    [openMenu] leaves the body class set and the attribute of an
    existing button at "true", also when it raises; [closeMenu] leaves
    the class removed and the attribute at "false"; a click on an
    existing button turns an open menu into a closed one and a closed
    one into an open one.  Hence, from a page where attribute and body
    class agree, they agree after every sequence of clicks and key
    presses. *)
Theorem X1_expanded_follows_menu :
  (forall st,
      Menu.menuOpen (Menu.after (Menu.openMenu st)) = true
      /\ Menu.navToggle (Menu.after (Menu.openMenu st))
         = option_map (fun _ => Some "true"%string) (Menu.navToggle st)
      /\ Menu.menuOpen (Menu.closeMenu st) = false
      /\ Menu.navToggle (Menu.closeMenu st)
         = option_map (fun _ => Some "false"%string) (Menu.navToggle st)
      /\ (Menu.navToggle st <> None ->
          Menu.menuOpen (Menu.after (Menu.dispatch st Menu.ToggleClick))
          = negb (Menu.menuOpen st)))
  /\ (forall evs st,
         Menu.expandedAgrees st -> Menu.expandedAgrees (Menu.run evs st)).
Proof.
  split.
  - intros st. unfold Menu.openMenu, Menu.closeMenu; simpl.
    repeat split.
    + destruct (Menu.navPanel st) as [[|]|]; reflexivity.
    + destruct (Menu.navPanel st) as [[|]|]; reflexivity.
    + intros Ht. destruct (Menu.navToggle st); [|contradiction].
      unfold Menu.toggleMenu, Menu.openMenu; simpl.
      destruct (Menu.menuOpen st); simpl; [reflexivity|].
      destruct (Menu.navPanel st) as [[|]|]; reflexivity.
  - unfold Menu.run. induction evs as [|ev evs IH]; intros st Hst; simpl.
    + exact Hst.
    + apply IH, dispatch_agrees. exact Hst.
Qed.

Lemma X1_witness :
  Menu.expandedAgrees Examples.closedMenu
  /\ Menu.expandedAgrees
       (Menu.run [Menu.ToggleClick; Menu.KeyDown "Tab"; Menu.KeyDown "Escape";
                  Menu.ToggleClick; Menu.NavLinkClick; Menu.ToggleClick]
                 Examples.closedMenu)
  /\ Menu.menuOpen (Menu.after (Menu.dispatch Examples.closedMenu
                                              Menu.ToggleClick))
     = true.
Proof.
  assert (Menu.expandedAgrees Examples.closedMenu) as H0 by reflexivity.
  split; [exact H0|]. split.
  - exact (proj2 X1_expanded_follows_menu _ Examples.closedMenu H0).
  - apply (proj2 (proj2 (proj2 (proj2
             (proj1 X1_expanded_follows_menu Examples.closedMenu))))).
    discriminate.
Defined.

(** X2.  [openMenu] raises a [TypeError] exactly when the page has no
    [#nav-panel], and the menu is open afterwards all the same; among the
    menu listeners only the click on the menu button can raise, and only
    when it opens the menu of such a page. *)
Theorem X2_open_without_panel (st : Menu.State) :
  (Menu.thrown (Menu.openMenu st) = Some TypeError
   <-> Menu.navPanel st = None)
  /\ Menu.menuOpen (Menu.after (Menu.openMenu st)) = true
  /\ (forall ev,
         Menu.thrown (Menu.dispatch st ev) <> None
         <-> ev = Menu.ToggleClick
             /\ Menu.navToggle st <> None
             /\ Menu.menuOpen st = false
             /\ Menu.navPanel st = None).
Proof.
  split; [|split].
  - unfold Menu.openMenu; simpl.
    destruct (Menu.navPanel st) as [hasLink|]; simpl.
    + split; discriminate.
    + split; reflexivity.
  - unfold Menu.openMenu; simpl.
    destruct (Menu.navPanel st) as [[|]|]; reflexivity.
  - intros ev. destruct ev as [| |key|]; simpl.
    + unfold Menu.toggleMenu, Menu.openMenu; simpl.
      destruct (Menu.navToggle st), (Menu.menuOpen st),
        (Menu.navPanel st) as [[|]|]; simpl;
        split;
        try (intros H; exfalso; apply H; reflexivity);
        try (intros (_ & H1 & H2 & H3); congruence);
        try (intros _; repeat split; discriminate).
    + destruct (Menu.navBackdrop st); simpl;
        (split; [intros H; exfalso; apply H; reflexivity
                |intros (H & _); discriminate H]).
    + destruct (String.eqb key "Escape" && Menu.menuOpen st); simpl;
        (split; [intros H; exfalso; apply H; reflexivity
                |intros (H & _); discriminate H]).
    + destruct (Menu.menuOpen st); simpl;
        (split; [intros H; exfalso; apply H; reflexivity
                |intros (H & _); discriminate H]).
Qed.

(** X3.  A click on a navigation link, a click on an existing backdrop
    and the Escape key leave the menu closed; Escape on an open menu
    moves the focus to the menu button if there is one; Escape on a
    closed menu and every other key change nothing. *)
Theorem X3_closing_events (st : Menu.State) :
  Menu.menuOpen (Menu.after (Menu.dispatch st Menu.NavLinkClick)) = false
  /\ (Menu.navBackdrop st = true ->
      Menu.menuOpen (Menu.after (Menu.dispatch st Menu.BackdropClick)) = false)
  /\ Menu.menuOpen (Menu.after (Menu.dispatch st (Menu.KeyDown "Escape")))
     = false
  /\ (Menu.menuOpen st = true -> Menu.navToggle st <> None ->
      Menu.scriptFocus (Menu.after (Menu.dispatch st (Menu.KeyDown "Escape")))
      = Menu.OnToggle)
  /\ (Menu.menuOpen st = false ->
      Menu.dispatch st (Menu.KeyDown "Escape") = Menu.completed st)
  /\ (forall key,
         key <> "Escape"%string ->
         Menu.dispatch st (Menu.KeyDown key) = Menu.completed st).
Proof.
  repeat split.
  - simpl. destruct (Menu.menuOpen st) eqn:Ho; simpl; [reflexivity|exact Ho].
  - intros Hb. simpl. rewrite Hb. reflexivity.
  - simpl. destruct (Menu.menuOpen st) eqn:Ho; simpl; [|exact Ho].
    destruct (Menu.navToggle st); reflexivity.
  - intros Ho Ht. simpl. rewrite Ho. simpl.
    destruct (Menu.navToggle st); [reflexivity|contradiction].
  - intros Ho. simpl. rewrite Ho. reflexivity.
  - intros key Hkey. simpl.
    apply String.eqb_neq in Hkey. rewrite Hkey. reflexivity.
Qed.

Lemma X3_witness :
  Menu.scriptFocus
    (Menu.after
       (Menu.dispatch (Menu.after (Menu.openMenu Examples.closedMenu))
                      (Menu.KeyDown "Escape")))
  = Menu.OnToggle.
Proof.
  apply (proj1 (proj2 (proj2 (proj2
           (X3_closing_events (Menu.after (Menu.openMenu Examples.closedMenu))))))).
  - reflexivity.
  - discriminate.
Defined.

(** ** The throttled scroll handler *)

(** X4.  After [onScroll] the two classes depend on the scroll position
    alone: on a page with a navbar, a visible scroll-to-top button means
    a navbar marked "scrolled"; and running [onScroll] again at the same
    position changes neither class, only the log. *)
Theorem X4_visible_means_scrolled (w : Window) :
  (navbar w <> None ->
   scrollTopBtn (onScroll w) = Some true ->
   navbar (onScroll w) = Some true)
  /\ navbar (onScroll (onScroll w)) = navbar (onScroll w)
  /\ scrollTopBtn (onScroll (onScroll w)) = scrollTopBtn (onScroll w)
  /\ ticking (onScroll w) = false.
Proof.
  unfold onScroll, pageYOffset; simpl.
  assert ((if scrollY w =? 0 then scrollY w else scrollY w) = scrollY w) as ->
    by (destruct (scrollY w =? 0); reflexivity).
  repeat split.
  - intros Hnav Hbtn.
    destruct (navbar w) as [n|]; [|contradiction].
    destruct (scrollTopBtn w) as [b|]; [|discriminate]. simpl in *.
    injection Hbtn as Hbtn. f_equal. lia.
  - destruct (navbar w); reflexivity.
  - destruct (scrollTopBtn w); reflexivity.
Qed.

Lemma X4_witness :
  navbar (onScroll (scrollEvent Scenario.idle 600)) = Some true.
Proof.
  apply (proj1 (X4_visible_means_scrolled (scrollEvent Scenario.idle 600))).
  - discriminate.
  - reflexivity.
Defined.

Lemma step_oneRequest w ev :
  Loop.isDirect ev = false ->
  Loop.oneRequest w ->
  Loop.oneRequest (Loop.step w ev)
  /\ (List.length (onScrollRuns (Loop.step w ev))
      <= List.length (onScrollRuns w)
         + (if Loop.isFrame ev then 1 else 0))%nat
  /\ (List.length (onScrollRuns (Loop.step w ev))
      + frameRequests (Loop.step w ev)
      <= List.length (onScrollRuns w) + frameRequests w
         + (if Loop.isScroll ev then 1 else 0))%nat.
Proof.
  intros Hev Hw. destruct ev as [y| |]; simpl in *; [| |discriminate].
  - unfold scrollEvent, scrollListener; simpl.
    destruct Hw as [[Ht Hf]|[Ht Hf]]; rewrite Ht; simpl.
    + repeat split; [left; split; [reflexivity|exact Hf]|lia|lia].
    + repeat split; [left; split; [reflexivity|simpl; lia]|lia|lia].
  - unfold animationFrame.
    destruct Hw as [[Ht Hf]|[Ht Hf]]; rewrite Hf; simpl.
    + unfold onScroll; simpl. repeat split.
      * right. split; reflexivity.
      * rewrite length_app. simpl. lia.
      * rewrite length_app. simpl. lia.
    + repeat split.
      * right. split; [exact Ht|reflexivity].
      * lia.
      * lia.
Qed.

(** X5.  Over any interleaving of scroll notifications and rendering
    frames, starting with at most one frame request pending and
    [ticking] saying whether one is, that stays so; [onScroll] runs at
    most once per frame, and at most once per notification after the
    request that was pending. *)
Theorem X5_one_request_pending (evs : list Loop.Event) (w : Window) :
  Forall (fun ev => Loop.isDirect ev = false) evs ->
  Loop.oneRequest w ->
  Loop.oneRequest (Loop.run evs w)
  /\ (List.length (onScrollRuns (Loop.run evs w))
      <= List.length (onScrollRuns w)
         + List.length (filter Loop.isFrame evs))%nat
  /\ (List.length (onScrollRuns (Loop.run evs w))
      + frameRequests (Loop.run evs w)
      <= List.length (onScrollRuns w) + frameRequests w
         + List.length (filter Loop.isScroll evs))%nat.
Proof.
  unfold Loop.run. revert w.
  induction evs as [|ev evs IH]; intros w Hevs Hw.
  - simpl. repeat split; [exact Hw|lia|lia].
  - inversion Hevs as [|? ? Hev Hevs']; subst.
    destruct (step_oneRequest w ev Hev Hw) as (Hw' & Hlen & Hreq).
    destruct (IH (Loop.step w ev) Hevs' Hw') as (Hinv & Hframes & Hscrolls).
    simpl fold_left. simpl filter.
    split; [exact Hinv|]. split.
    + destruct (Loop.isFrame ev); simpl List.length; lia.
    + destruct (Loop.isScroll ev); simpl List.length; lia.
Qed.

Lemma X5_witness :
  Loop.oneRequest
    (Loop.run [Loop.Scroll 10; Loop.Scroll 700; Loop.Frame; Loop.Frame;
               Loop.Scroll 5]
              Scenario.idle).
Proof.
  apply (X5_one_request_pending _ Scenario.idle).
  - repeat constructor.
  - right. split; reflexivity.
Defined.

(** X6.  A direct call of [onScroll] while a frame request is pending
    clears [ticking] without cancelling the request, so the next scroll
    notification queues a second one and the following frame runs
    [onScroll] twice at the same position. *)
Theorem X6_direct_call_doubles (w : Window) (y : Z) :
  ticking w = true ->
  frameRequests w = 1%nat ->
  onScrollRuns (Loop.run [Loop.Direct; Loop.Scroll y; Loop.Frame] w)
  = onScrollRuns w ++ [scrollY w; y; y]
  /\ frameRequests (Loop.run [Loop.Direct; Loop.Scroll y] w) = 2%nat.
Proof.
  intros Ht Hf. unfold Loop.run; simpl.
  unfold animationFrame, scrollEvent, scrollListener, onScroll, pageYOffset;
    simpl.
  rewrite Hf. simpl.
  assert ((if scrollY w =? 0 then scrollY w else scrollY w) = scrollY w) as ->
    by (destruct (scrollY w =? 0); reflexivity).
  assert ((if y =? 0 then y else y) = y) as ->
    by (destruct (y =? 0); reflexivity).
  split; [|reflexivity].
  rewrite <- !app_assoc. reflexivity.
Qed.

Lemma X6_witness :
  onScrollRuns (Loop.run [Loop.Direct; Loop.Scroll 40; Loop.Frame]
                         Examples.pending)
  = [30; 40; 40].
Proof.
  exact (proj1 (X6_direct_call_doubles Examples.pending 40 eq_refl eq_refl)).
Defined.

(** ** The scroll listener along the page *)

Lemma lastAssigned_acc y rest : forall i k,
  (k <= i)%nat ->
  exists n, Reach.lastAssigned y i (Some k) rest = Some n /\ (k <= n)%nat.
Proof.
  induction rest as [|t rest IH]; intros i k Hk; simpl.
  - exists k. split; [reflexivity|lia].
  - destruct (y >=? offsetTop t - 200).
    + destruct (IH (S i) i) as (n & Hn & Hle); [lia|].
      exists n. split; [exact Hn|lia].
    + apply IH. lia.
Qed.

(** What [lastAssigned] returns is the position of the last reached
    section of [rest], or the accumulator when none is reached. *)
Lemma lastAssigned_cases y rest : forall i acc,
  (Reach.lastAssigned y i acc rest = acc
   /\ Forall (fun t => y < offsetTop t - 200) rest)
  \/ (exists pre s post,
         rest = pre ++ s :: post
         /\ Reach.lastAssigned y i acc rest = Some (i + List.length pre)%nat
         /\ offsetTop s - 200 <= y
         /\ Forall (fun t => y < offsetTop t - 200) post).
Proof.
  induction rest as [|t rest IH]; intros i acc; simpl.
  - left. split; [reflexivity|constructor].
  - destruct (y >=? offsetTop t - 200) eqn:E.
    + destruct (IH (S i) (Some i))
        as [[Hacc Hall]|(pre & s & post & -> & Hn & Hs & Hpost)].
      * right. exists [], t, rest. simpl.
        repeat split; [rewrite Hacc; f_equal; lia|lia|exact Hall].
      * right. exists (t :: pre), s, post. simpl.
        repeat split; [rewrite Hn; f_equal; lia|exact Hs|exact Hpost].
    + destruct (IH (S i) acc)
        as [[Hacc Hall]|(pre & s & post & -> & Hn & Hs & Hpost)].
      * left. split; [exact Hacc|]. constructor; [lia|exact Hall].
      * right. exists (t :: pre), s, post. simpl.
        repeat split; [rewrite Hn; f_equal; lia|exact Hs|exact Hpost].
Qed.

Lemma nth_error_middle {A : Type} (pre : list A) (s : A) (post : list A) :
  nth_error (pre ++ s :: post) (List.length pre) = Some s.
Proof.
  induction pre as [|x pre IH]; simpl; [reflexivity|exact IH].
Qed.

Lemma currentIndex_Some sections y n :
  Reach.currentIndex sections y = Some n ->
  exists s, nth_error sections n = Some s
            /\ offsetTop s - 200 <= y
            /\ Legacy.current sections y = attr_id s.
Proof.
  unfold Reach.currentIndex. intros Hn.
  destruct (lastAssigned_cases y sections 0 None)
    as [[Hnone _]|(pre & s & post & Heq & Hidx & Hs & Hpost)].
  - congruence.
  - rewrite Hidx in Hn. injection Hn as <-. simpl.
    exists s. rewrite Heq. split; [apply nth_error_middle|].
    split; [exact Hs|].
    apply current_lastReached. exists pre, post. repeat split; assumption.
Qed.

Lemma lastAssigned_reaches y rest : forall i acc pre s post,
  rest = pre ++ s :: post ->
  offsetTop s - 200 <= y ->
  exists n, Reach.lastAssigned y i acc rest = Some n
            /\ (i + List.length pre <= n)%nat.
Proof.
  induction rest as [|t rest IH]; intros i acc pre s post Heq Hs.
  - destruct pre; discriminate Heq.
  - destruct pre as [|p pre]; simpl in Heq; injection Heq as -> ->; simpl.
    + destruct (y >=? offsetTop s - 200) eqn:E; [|lia].
      destruct (lastAssigned_acc y post (S i) i) as (n & Hn & Hle); [lia|].
      exists n. split; [exact Hn|lia].
    + destruct (IH (S i)
                  (if y >=? offsetTop p - 200 then Some i else acc)
                  pre s post eq_refl Hs) as (n & Hn & Hle).
      exists n. split; [exact Hn|lia].
Qed.

(** X7.  Scrolling down never moves the choice of the scroll listener to
    an earlier section: if at scroll position [y] the listener settles
    on the section at position [n] of the page, then at every position
    [y'] from [y] on it settles on a section at position [n] or later. *)
Theorem X7_choice_moves_forward (sections : list Section) (y y' : Z) (n : nat) :
  y <= y' ->
  Reach.currentIndex sections y = Some n ->
  (exists s,
      nth_error sections n = Some s
      /\ Legacy.current sections y = attr_id s)
  /\ exists n' s',
      Reach.currentIndex sections y' = Some n'
      /\ (n <= n')%nat
      /\ nth_error sections n' = Some s'
      /\ Legacy.current sections y' = attr_id s'.
Proof.
  intros Hy Hn. split.
  { destruct (currentIndex_Some sections y n Hn) as (s & Hnth & _ & Hcur).
    exists s. split; assumption. }
  unfold Reach.currentIndex in Hn.
  destruct (lastAssigned_cases y sections 0 None)
    as [[Hnone _]|(pre & s & post & Heq & Hidx & Hs & _)]; [congruence|].
  rewrite Hidx in Hn. injection Hn as <-.
  destruct (lastAssigned_reaches y' sections 0 None pre s post Heq)
    as (n' & Hn' & Hle); [lia|].
  destruct (currentIndex_Some sections y' n' Hn') as (s' & Hnth & _ & Hcur).
  exists n', s'. repeat split; assumption.
Qed.

Lemma X7_witness :
  exists n' s',
    Reach.currentIndex Examples.threeSections 1900 = Some n'
    /\ (1 <= n')%nat
    /\ nth_error Examples.threeSections n' = Some s'
    /\ Legacy.current Examples.threeSections 1900 = attr_id s'.
Proof.
  apply (proj2 (X7_choice_moves_forward Examples.threeSections 650 1900 1
                  ltac:(lia) eq_refl)).
Defined.

Lemma ascending_suffix pre rest :
  Reach.ascending (pre ++ rest) -> Reach.ascending rest.
Proof.
  unfold Reach.ascending. induction pre as [|p pre IH]; simpl; intros H.
  - exact H.
  - apply IH. apply StronglySorted_inv in H. apply H.
Qed.

Lemma ascending_unreached s rest y :
  Reach.ascending (s :: rest) ->
  y < offsetTop s - 200 ->
  Forall (fun t => y < offsetTop t - 200) (s :: rest).
Proof.
  unfold Reach.ascending. simpl. intros H Hs.
  apply StronglySorted_inv in H. destruct H as [_ Hall].
  constructor; [exact Hs|].
  rewrite Forall_map in Hall.
  eapply Forall_impl; [|exact Hall]. simpl. intros t Ht. lia.
Qed.

(** X8.  On a page whose top offsets do not decrease in document order,
    each section owns a stretch of scroll positions: from 200 pixels
    before its top up to 200 pixels before the top of the next section
    the scroll listener settles on it; before the stretch of the first
    section it settles on none. *)
Theorem X8_section_stretches (y : Z) :
  (forall pre s next post,
      Reach.ascending (pre ++ s :: next :: post) ->
      offsetTop s - 200 <= y ->
      y < offsetTop next - 200 ->
      Legacy.current (pre ++ s :: next :: post) y = attr_id s)
  /\ (forall first rest,
         Reach.ascending (first :: rest) ->
         y < offsetTop first - 200 ->
         Legacy.current (first :: rest) y = EmptyString).
Proof.
  split.
  - intros pre s next post Hasc Hs Hnext.
    apply current_lastReached. exists pre, (next :: post).
    repeat split; [exact Hs|].
    apply ascending_unreached; [|exact Hnext].
    apply (ascending_suffix (pre ++ [s])).
    rewrite <- app_assoc. exact Hasc.
  - intros first rest Hasc Hfirst.
    apply current_none_reached, ascending_unreached; assumption.
Qed.

Lemma X8_witness :
  Legacy.current ([Scenario.about] ++ Scenario.work :: Examples.contact :: [])
                 1799
  = "work"%string.
Proof.
  apply (proj1 (X8_section_stretches 1799)
           [Scenario.about] Scenario.work Examples.contact []).
  - unfold Reach.ascending. simpl.
    repeat constructor; simpl; lia.
  - simpl. lia.
  - simpl. lia.
Defined.

(** ** Recomputations one after another *)

Lemma rescan_rescan id id' links :
  rescan id (rescan id' links) = rescan id links.
Proof.
  unfold rescan. rewrite map_map. apply map_ext. intros l. reflexivity.
Qed.

(** X9.  A recomputation by either handler changes no [href] and keeps
    the links in place, and one that settles on a section overrides
    whatever earlier recomputations left: the marking after it is the
    same as if it had run alone; in particular running it twice is the
    same as running it once. *)
Theorem X9_latest_choice_wins
        (sections : list Section) (ev1 ev2 : Tracker.Recompute)
        (id : string) (links : list NavLink) :
  Tracker.selected sections ev2 = Some id ->
  Tracker.recompute sections ev2 (Tracker.recompute sections ev1 links)
  = Tracker.recompute sections ev2 links
  /\ Tracker.recompute sections ev2 (Tracker.recompute sections ev2 links)
     = Tracker.recompute sections ev2 links
  /\ map href (Tracker.recompute sections ev2 links) = map href links.
Proof.
  intros Hsel.
  rewrite !(recompute_selected sections ev2 id _ Hsel).
  split; [|split].
  - destruct (Tracker.selected sections ev1) as [id1|] eqn:Hsel1.
    + rewrite (recompute_selected sections ev1 id1 _ Hsel1).
      apply rescan_rescan.
    + rewrite (recompute_unselected sections ev1 _ Hsel1). reflexivity.
  - apply rescan_rescan.
  - apply rescan_href.
Qed.

Lemma X9_witness :
  Tracker.recompute Scenario.sections (Tracker.ByScroll 900)
    (Tracker.recompute Scenario.sections (Tracker.ByScroll 0) Scenario.links)
  = Tracker.recompute Scenario.sections (Tracker.ByScroll 900) Scenario.links.
Proof.
  exact (proj1 (X9_latest_choice_wins Scenario.sections (Tracker.ByScroll 0)
                  (Tracker.ByScroll 900) "work" Scenario.links eq_refl)).
Defined.

Lemma rescan_active id links l :
  In l (rescan id links) -> active l = true -> href l = Some (hash id).
Proof.
  intros Hin Hact.
  pose proof (rescan_marksOnly id links) as Hm.
  unfold Tracker.marksOnly in Hm. rewrite Forall_forall in Hm.
  rewrite (Hm l Hin) in Hact. apply hrefIs_true. exact Hact.
Qed.

(** X10.  A link that names no section is never marked by a
    recomputation.  After the scroll listener an active link has as
    [href] either [#] followed by the identifier of a section of the
    page whose lookahead line is reached, or exactly [#]; after the
    observer callback has run on entries of which one intersects, an
    active link has as [href] [#] followed by the identifier of the
    target of an intersecting entry. *)
Theorem X10_only_section_links_marked (links : list NavLink) (l : NavLink) :
  (forall sections y,
      In l (Legacy.onScrollActive sections y links) ->
      active l = true ->
      href l = Some "#"%string
      \/ exists s, In s sections
                   /\ offsetTop s - 200 <= y
                   /\ href l = Some (hash (attr_id s)))
  /\ (forall entries,
         Exists (fun e => isIntersecting e = true) entries ->
         In l (sectionObserverCallback entries links) ->
         active l = true ->
         exists e, In e entries
                   /\ isIntersecting e = true
                   /\ href l = Some (hash (attr_id (target e)))).
Proof.
  split.
  - intros sections y Hin Hact.
    rewrite onScrollActive_rescan in Hin.
    pose proof (rescan_active _ _ _ Hin Hact) as Hhref.
    destruct (current_cases sections y)
      as [[Hc _]|(s & pre & post & Heq & Hs & Hpost)].
    + left. rewrite Hhref, Hc. reflexivity.
    + right. exists s. split; [rewrite Heq; apply in_elt|].
      split; [exact Hs|].
      rewrite Hhref. f_equal. f_equal.
      apply current_lastReached. exists pre, post.
      repeat split; assumption.
  - intros entries Hsome Hin Hact.
    rewrite callback_rescan in Hin.
    destruct (visible entries) as [v|] eqn:Hv.
    + destruct (visible_Some entries v Hv) as (pre & post & Heq & Hvi & _ & _).
      exists v. split; [rewrite Heq; apply in_elt|].
      split; [exact Hvi|].
      apply (rescan_active _ links). exact Hin. exact Hact.
    + apply visible_None in Hv. exfalso.
      apply Exists_exists in Hsome. destruct Hsome as (e & He & Hei).
      rewrite Forall_forall in Hv. rewrite (Hv e He) in Hei. discriminate.
Qed.

Lemma X10_witness :
  href (Scenario.workLink true) = Some "#"%string
  \/ exists s, In s Scenario.sections
               /\ offsetTop s - 200 <= 900
               /\ href (Scenario.workLink true) = Some (hash (attr_id s)).
Proof.
  apply (proj1 (X10_only_section_links_marked Scenario.links
                  (Scenario.workLink true)) Scenario.sections 900).
  - right. left. reflexivity.
  - reflexivity.
Defined.

(** ** Reveal animations *)

Lemma updateAt_Forall {A : Type} (P : A -> Prop) (f : A -> A) n (l : list A) :
  (forall x, P x -> P (f x)) -> Forall P l -> Forall P (Observers.updateAt n f l).
Proof.
  intros Hf Hl. revert n.
  induction Hl as [|x l Hx Hl IH]; intros n; simpl.
  - destruct n; constructor.
  - destruct n as [|m]; constructor; auto.
Qed.

Lemma updateAt_nth {A : Type} (f : A -> A) (l : list A) : forall n m,
  nth_error (Observers.updateAt n f l) m
  = if Nat.eqb n m then option_map f (nth_error l m) else nth_error l m.
Proof.
  induction l as [|x l IH]; intros n m; simpl.
  - destruct n, m; simpl; try reflexivity.
    destruct (Nat.eqb n m); reflexivity.
  - destruct n as [|n], m as [|m]; simpl; try reflexivity.
    apply IH.
Qed.

Lemma revealCallback_keeps entries : forall els,
  Forall Observers.shownOrWatched els ->
  Forall Observers.shownOrWatched (Observers.revealCallback entries els).
Proof.
  unfold Observers.revealCallback.
  induction entries as [|e entries IH]; intros els Hels; simpl.
  - exact Hels.
  - apply IH. destruct (Observers.isIntersecting e); [|exact Hels].
    apply updateAt_Forall; [|exact Hels].
    intros w _. left. reflexivity.
Qed.

Lemma revealSetup_shownOrWatched prm io els :
  Forall Observers.shownOrWatched (Observers.revealSetup prm io els).
Proof.
  unfold Observers.revealSetup.
  destruct prm; [|destruct io]; apply Forall_map, Forall_forall; intros e _.
  - left. reflexivity.
  - right. reflexivity.
  - left. reflexivity.
Qed.

Lemma filter_map_observed {A : Type} (l : list A) :
  map Observers.el (filter Observers.watched (map Observers.observed l)) = l.
Proof.
  induction l as [|x l IH]; simpl; [reflexivity|]. rewrite IH. reflexivity.
Qed.

Lemma filter_map_unobserved {A : Type} (f : A -> A) (l : list A) :
  filter Observers.watched (map (fun e => Observers.unobserved (f e)) l) = [].
Proof.
  induction l as [|x l IH]; simpl; [reflexivity|exact IH].
Qed.

(** X11.  No reveal element is ever left hidden and unwatched: after the
    set-up, in every environment, and after any number of observer
    notifications, each reveal element is visible or still watched by
    the reveal observer.  The element-wise set-up is the reveal block of
    [init]: same elements, and the watched ones are those handed to the
    observer. *)
Theorem X11_shown_or_watched
        (prm io : bool) (revealEls : list RevealEl)
        (batches : list (list Observers.Notice)) :
  Forall Observers.shownOrWatched
         (Observers.revealRuns batches (Observers.revealSetup prm io revealEls))
  /\ (forall numberText cssWidth page,
         map Observers.el (Observers.revealSetup prm io (Script.revealEls page))
         = Script.revealEls (fst (init numberText cssWidth prm io page))
         /\ map Observers.el
                (filter Observers.watched
                        (Observers.revealSetup prm io (Script.revealEls page)))
            = byRevealObserver (snd (init numberText cssWidth prm io page))).
Proof.
  split.
  - unfold Observers.revealRuns.
    generalize (revealSetup_shownOrWatched prm io revealEls).
    generalize (Observers.revealSetup prm io revealEls).
    induction batches as [|entries batches IH]; intros els Hels; simpl.
    + exact Hels.
    + apply IH, revealCallback_keeps. exact Hels.
  - intros numberText cssWidth page. unfold init, Observers.revealSetup.
    destruct prm, io, (skillsOverview page);
      destruct (negb (Nat.eqb (List.length (statEls page)) 0));
      simpl;
      rewrite ?map_map, ?filter_map_observed, ?filter_map_unobserved;
      simpl; split; try reflexivity;
      try (rewrite <- (map_id (Script.revealEls page)) at 2;
           apply map_ext; reflexivity).
Qed.

Lemma revealCallback_nth entries : forall els n w,
  nth_error els n = Some w ->
  exists w',
    nth_error (Observers.revealCallback entries els) n = Some w'
    /\ if Observers.reported n entries
       then is_visible (Observers.el w') = true
            /\ Observers.watched w' = false
       else w' = w.
Proof.
  unfold Observers.revealCallback, Observers.reported.
  induction entries as [|e entries IH]; intros els n w Hw; simpl.
  - exists w. split; [exact Hw|reflexivity].
  - destruct (Observers.isIntersecting e) eqn:Hi; simpl.
    + destruct (Nat.eqb (Observers.target e) n) eqn:Hn; simpl.
      * destruct (IH (Observers.updateAt (Observers.target e)
                        (fun w => Observers.unobserved
                                    (show (Observers.el w))) els)
                     n (Observers.unobserved (show (Observers.el w))))
          as (w' & Hw' & Hshape).
        { rewrite updateAt_nth, Hn, Hw. reflexivity. }
        exists w'. split; [exact Hw'|].
        destruct (existsb _ entries); [exact Hshape|].
        rewrite Hshape. split; reflexivity.
      * apply IH. rewrite updateAt_nth, Hn. exact Hw.
    + apply IH. exact Hw.
Qed.

(** X12.  One notification of the reveal observer shows and stops
    watching exactly the elements it reports as intersecting, and leaves
    every other element as it was; it never hides an element. *)
Theorem X12_reveal_notification
        (entries : list Observers.Notice)
        (els : list (Observers.Watched RevealEl))
        (n : nat) (w : Observers.Watched RevealEl) :
  nth_error els n = Some w ->
  exists w',
    nth_error (Observers.revealCallback entries els) n = Some w'
    /\ (Observers.reported n entries = true ->
        is_visible (Observers.el w') = true /\ Observers.watched w' = false)
    /\ (Observers.reported n entries = false -> w' = w)
    /\ (is_visible (Observers.el w) = true ->
        is_visible (Observers.el w') = true).
Proof.
  intros Hw.
  destruct (revealCallback_nth entries els n w Hw) as (w' & Hw' & Hshape).
  exists w'. split; [exact Hw'|].
  destruct (Observers.reported n entries).
  - split; [intros _; exact Hshape|].
    split; [discriminate|]. intros _. apply Hshape.
  - subst w'. split; [discriminate|].
    split; [reflexivity|]. intros H. exact H.
Qed.

Lemma X12_witness :
  exists w',
    nth_error
      (Observers.revealCallback
         [ {| Observers.target := 1; Observers.isIntersecting := true |} ]
         (Observers.revealSetup false true
            [ {| is_visible := false |}; {| is_visible := false |} ]))
      1
    = Some w'
    /\ is_visible (Observers.el w') = true
    /\ Observers.watched w' = false.
Proof.
  destruct (X12_reveal_notification
              [ {| Observers.target := 1; Observers.isIntersecting := true |} ]
              (Observers.revealSetup false true
                 [ {| is_visible := false |}; {| is_visible := false |} ])
              1 (Observers.observed {| is_visible := false |}) eq_refl)
    as (w' & Hw' & Hrep & _).
  exists w'. split; [exact Hw'|]. apply Hrep. reflexivity.
Defined.

(** ** Skill bars *)

Lemma animateSkillBars_twice
      (numberText : string -> string) (cssWidth : string -> option string)
      (prm : bool) (fills : list SkillFill) :
  animateSkillBars numberText cssWidth prm
    (animateSkillBars numberText cssWidth prm fills)
  = animateSkillBars numberText cssWidth prm fills.
Proof.
  rewrite !animateSkillBars_settled, map_map. apply map_ext.
  intros [progress width]; simpl.
  destruct (cssWidth
              (String.append (numberText (orDefault progress "0")) "%"));
    [reflexivity|].
  destruct prm; [reflexivity|].
  destruct (cssWidth "0%"%string); reflexivity.
Qed.

Lemma skillsCallback_done
      (numberText : string -> string) (cssWidth : string -> option string)
      (prm : bool) (entries : list Observers.Notice) : forall fills,
  Observers.skillsCallback numberText cssWidth prm entries
    {| Observers.bars := animateSkillBars numberText cssWidth prm fills;
       Observers.skillsWatched := false |}
  = {| Observers.bars := animateSkillBars numberText cssWidth prm fills;
       Observers.skillsWatched := false |}.
Proof.
  unfold Observers.skillsCallback.
  induction entries as [|e entries IH]; intros fills; simpl; [reflexivity|].
  destruct (Observers.isIntersecting e); simpl.
  - rewrite animateSkillBars_twice. apply IH.
  - apply IH.
Qed.

(** X13.  With an observer the skill bars are left alone until the
    skills block is reported intersecting.  A notification with an
    intersecting entry stops the watching and leaves every bar as the
    no-observer fallback leaves it at once: with the width made of the
    text of its progress and [%] when the style setter takes that value,
    with or without reduced motion; a bar whose value the setter drops
    keeps its width under reduced motion and is otherwise left at the
    width written first, [0%]. *)
Theorem X13_skill_bars_meet_fallback
        (numberText : string -> string) (cssWidth : string -> option string)
        (prm : bool)
        (fills : list SkillFill) (entries : list Observers.Notice) :
  (Exists (fun e => Observers.isIntersecting e = true) entries ->
   Observers.skillsCallback numberText cssWidth prm entries
     (Observers.skillsSetup numberText cssWidth prm true fills)
   = {| Observers.bars :=
          map (fun bar =>
                 let w :=
                   String.append
                     (numberText (orDefault (data_progress bar) "0")) "%" in
                 {| data_progress := data_progress bar;
                    style_width :=
                      match cssWidth w with
                      | Some v => Some v
                      | None =>
                          if prm then style_width bar
                          else match cssWidth "0%"%string with
                               | Some zero => Some zero
                               | None => style_width bar
                               end
                      end |})
              fills;
        Observers.skillsWatched := false |})
  /\ (Exists (fun e => Observers.isIntersecting e = true) entries ->
      Observers.skillsCallback numberText cssWidth prm entries
        (Observers.skillsSetup numberText cssWidth prm true fills)
      = Observers.skillsSetup numberText cssWidth prm false fills)
  /\ (Forall (fun e => Observers.isIntersecting e = false) entries ->
      Observers.skillsCallback numberText cssWidth prm entries
        (Observers.skillsSetup numberText cssWidth prm true fills)
      = {| Observers.bars := fills; Observers.skillsWatched := true |})
  /\ (forall io page,
         skillsOverview (fst (init numberText cssWidth prm io page))
         = option_map
             (fun fills' =>
                Observers.bars
                  (Observers.skillsSetup numberText cssWidth prm io fills'))
             (skillsOverview page)).
Proof.
  assert (Exists (fun e => Observers.isIntersecting e = true) entries ->
          Observers.skillsCallback numberText cssWidth prm entries
            (Observers.skillsSetup numberText cssWidth prm true fills)
          = Observers.skillsSetup numberText cssWidth prm false fills)
    as Hmeet.
  { unfold Observers.skillsSetup.
    induction entries as [|e entries IH]; intros Hex.
    - inversion Hex.
    - unfold Observers.skillsCallback in *. simpl.
      destruct (Observers.isIntersecting e) eqn:Hi.
      + simpl.
        pose proof (skillsCallback_done numberText cssWidth prm entries fills)
          as Hd.
        unfold Observers.skillsCallback in Hd. exact Hd.
      + apply IH. inversion Hex as [? ? H|? ? H]; subst; [congruence|exact H]. }
  split; [|split; [|split]].
  - intros Hex. rewrite (Hmeet Hex). unfold Observers.skillsSetup.
    rewrite animateSkillBars_settled. reflexivity.
  - exact Hmeet.
  - clear Hmeet. unfold Observers.skillsSetup, Observers.skillsCallback.
    induction 1 as [|e entries He _ IH]; simpl; [reflexivity|].
    rewrite He. exact IH.
  - intros io page. unfold init, Observers.skillsSetup.
    destruct prm, io, (skillsOverview page);
      destruct (negb (Nat.eqb (List.length (statEls page)) 0));
      reflexivity.
Qed.

Lemma X13_witness :
  Observers.skillsCallback (fun s => s) (fun w => Some w) false
    [ {| Observers.target := 0; Observers.isIntersecting := true |} ]
    (Observers.skillsSetup (fun s => s) (fun w => Some w) false true
       [ {| data_progress := Some "90"%string; style_width := None |} ])
  = {| Observers.bars :=
         [ {| data_progress := Some "90"%string;
              style_width := Some "90%"%string |} ];
       Observers.skillsWatched := false |}.
Proof.
  apply (proj1 (X13_skill_bars_meet_fallback (fun s => s) (fun w => Some w)
                  false
                  [ {| data_progress := Some "90"%string;
                       style_width := None |} ]
                  [ {| Observers.target := 0;
                       Observers.isIntersecting := true |} ])).
  constructor. reflexivity.
Defined.

(** ** Stat counters *)

Section TickFacts.

Variable num : Type.
Variable toNumber : string -> num.
Variable numberToText : num -> string.
Variable literal : Z -> num.
Variable sub : num -> num -> num.
Variable mul : num -> num -> num.
Variable div : num -> num -> num.
Variable min : num -> num -> num.
Variable floor : num -> num.
Variable lt : num -> num -> bool.

Lemma frames_stopped (nows : list num) (el : StatNumber) :
  Observers.frames numberToText literal sub mul div min floor lt nows
    {| Observers.stat := el; Observers.animation := None |}
  = {| Observers.stat := el; Observers.animation := None |}.
Proof.
  unfold Observers.frames.
  induction nows as [|now nows IH]; simpl; [reflexivity|exact IH].
Qed.

Lemma frames_stop (a : Observers.Animation num) (nows : list num) :
  forall c : Observers.Counter num,
  Observers.animation c = Some a ->
  Exists (fun now =>
            lt (Observers.progress literal sub div min a now) (literal 1)
            = false) nows ->
  Observers.frames numberToText literal sub mul div min floor lt nows c
  = {| Observers.stat :=
         Observers.setText
           (Observers.stat c)
           (String.append (numberToText (Observers.endValue a))
                          (Observers.suffix a));
       Observers.animation := None |}.
Proof.
  induction nows as [|now nows IH]; intros c Ha Hex.
  - inversion Hex.
  - unfold Observers.frames. simpl fold_left.
    fold (Observers.frames numberToText literal sub mul div min floor lt nows
            (Observers.tick numberToText literal sub mul div min floor lt
                            now c)).
    unfold Observers.tick at 1. rewrite Ha.
    destruct (lt (Observers.progress literal sub div min a now) (literal 1))
      eqn:Hlt.
    + rewrite IH; [reflexivity|reflexivity|].
      inversion Hex as [? ? H|? ? H]; subst; [congruence|exact H].
    + apply frames_stopped.
Qed.

(** X14.  A counter animation, started on a counter with none in
    flight, whatever the double arithmetic returns: a frame at which
    [t < 1] holds, for [t = Math.min((now - startTime) / 900, 1)], writes
    [Math.floor(end * (t * (2 - t)))] with the suffix and asks for
    another frame; a frame at which it fails writes the end value with
    the suffix, which is the text [animateNumber] writes at once under
    reduced motion, and asks for none; so after any run of frames that
    has such a frame the animation has stopped with that text, and
    frames after that change nothing. *)
Theorem X14_counter_reaches_end (start : num) (c : Observers.Counter num) :
  Observers.animation c = None ->
  let started :=
    Observers.animateNumber toNumber numberToText false start c in
  let final :=
    {| Observers.stat :=
         Observers.stat
           (Observers.animateNumber toNumber numberToText true start c);
       Observers.animation := None |} in
  let end_ := toNumber (orDefault (data_count (Observers.stat c)) "0") in
  let suffix_ := orDefault (data_suffix (Observers.stat c)) EmptyString in
  let t := fun now => min (div (sub now start) (literal 900)) (literal 1) in
  (forall now,
      lt (t now) (literal 1) = true ->
      Observers.tick numberToText literal sub mul div min floor lt now started
      = {| Observers.stat :=
             Observers.setText
               (Observers.stat c)
               (String.append
                  (numberToText
                     (floor (mul end_ (mul (t now) (sub (literal 2) (t now))))))
                  suffix_);
           Observers.animation :=
             Some {| Observers.startTime := start;
                     Observers.endValue := end_;
                     Observers.suffix := suffix_ |} |})
  /\ (forall now,
         lt (t now) (literal 1) = false ->
         Observers.tick numberToText literal sub mul div min floor lt now
                        started
         = final)
  /\ (forall nows,
         Exists (fun now => lt (t now) (literal 1) = false) nows ->
         Observers.frames numberToText literal sub mul div min floor lt nows
                          started
         = final)
  /\ (forall nows,
         Observers.frames numberToText literal sub mul div min floor lt nows
                          final
         = final).
Proof.
  intros _ started final end_ suffix_ t.
  split; [|split; [|split]].
  - intros now Hlt. unfold Observers.tick, started; simpl.
    unfold Observers.progress, Observers.duration; simpl.
    fold (t now). rewrite Hlt. reflexivity.
  - intros now Hlt. unfold Observers.tick, started; simpl.
    unfold Observers.progress, Observers.duration; simpl.
    fold (t now). rewrite Hlt. reflexivity.
  - intros nows Hex.
    rewrite (frames_stop
               {| Observers.startTime := start;
                  Observers.endValue := end_;
                  Observers.suffix := suffix_ |} nows started eq_refl).
    + reflexivity.
    + exact Hex.
  - intros nows. apply frames_stopped.
Qed.

End TickFacts.

Lemma X14_witness :
  textContent
    (Observers.stat
       (Observers.frames (fun _ => "12"%string) inject_Z Qminus Qmult Qdiv Qmin
          Observers.exactFloor Observers.exactLt [400%Q; 1000%Q; 1016%Q]
          (Observers.animateNumber (fun _ => 12%Q) (fun _ => "12"%string)
             false 100%Q
             {| Observers.stat := Examples.twelve;
                Observers.animation := None |})))
  = "12+"%string.
Proof.
  rewrite (proj1 (proj2 (proj2
             (X14_counter_reaches_end Q (fun _ => 12%Q) (fun _ => "12"%string)
                inject_Z Qminus Qmult Qdiv Qmin
                Observers.exactFloor Observers.exactLt 100%Q
                {| Observers.stat := Examples.twelve;
                   Observers.animation := None |}
                eq_refl)))
             [400%Q; 1000%Q; 1016%Q]).
  - reflexivity.
  - right. left. vm_compute. reflexivity.
Defined.

Section CounterFacts.

Variable toNumber : string -> Q.
Variable numberToText : Q -> string.

(** X15.  The three ways a counter gets its text agree where the
    attribute is a number in its own decimal form: if [data-count] is a
    non-empty string that [Number] and the template literal give back
    unchanged, reduced motion and the no-observer fallback write the
    same text.  Without a [data-count], or with an empty one, the
    fallback leaves the element alone while [animateNumber] writes the
    text of [Number("0")] and the suffix. *)
Theorem X15_counter_texts (now : Q) (el : StatNumber) :
  (forall count,
      data_count el = Some count ->
      count <> EmptyString ->
      numberToText (toNumber count) = count ->
      textContent
        (Observers.stat
           (Observers.animateNumber toNumber numberToText true now
              {| Observers.stat := el; Observers.animation := None |}))
      = textContent (showCount el))
  /\ (truthy (data_count el) = false ->
      showCount el = el
      /\ textContent
           (Observers.stat
              (Observers.animateNumber toNumber numberToText true now
                 {| Observers.stat := el; Observers.animation := None |}))
         = String.append (numberToText (toNumber "0"))
                         (orDefault (data_suffix el) EmptyString)).
Proof.
  split.
  - intros count Hc Hne Hcanon.
    unfold Observers.animateNumber, showCount, truthy; simpl.
    rewrite Hc. destruct count as [|ch rest]; [contradiction|].
    simpl. simpl in Hcanon. rewrite Hcanon. reflexivity.
  - intros Hfalse. unfold Observers.animateNumber, showCount; simpl.
    unfold truthy in *.
    destruct (data_count el) as [[|ch rest]|]; try discriminate;
      split; reflexivity.
Qed.

End CounterFacts.

Lemma X15_witness :
  textContent
    (Observers.stat
       (Observers.animateNumber (fun _ => 12%Q) (fun _ => "12"%string) true 0%Q
          {| Observers.stat := Examples.twelve;
             Observers.animation := None |}))
  = textContent (showCount Examples.twelve).
Proof.
  apply (proj1 (X15_counter_texts (fun _ => 12%Q) (fun _ => "12"%string) 0
                  Examples.twelve) "12"%string).
  - reflexivity.
  - discriminate.
  - reflexivity.
Defined.
